(** * AI Form Filling Assistant: the content script's matching and date logic

    A shallow embedding of [chrome-extension/js/content.js]: the date
    normalizer ([parseDate], [formatDateToExpected], [detectDateFormat]), the
    field classifier ([identifyField] over [FIELD_MAPPING]), the select
    purpose resolver ([detectSelectPurpose]), the value writer ([fillField])
    and the display mask ([maskSensitiveValue]).

    Conventions.  A JavaScript string is a [string] of code units; letter
    case and white space are those of ASCII.  A JavaScript number is a
    [number]: [NaN] or an integer (the script only ever computes with the
    results of [parseInt] and small constants).  [null] and [undefined]
    results are [None]. *)

From Stdlib Require Import ZArith List Bool Ascii String Lia Permutation.
Import ListNotations.

Local Open Scope string_scope.
Local Open Scope Z_scope.

(** ** JavaScript primitives *)

Module JS.

Inductive number : Type :=
| NaN
| Int (z : Z).

(** [a === b] on numbers: [NaN] equals nothing. *)
Definition strictEq (a b : number) : bool :=
  match a, b with
  | Int x, Int y => x =? y
  | _, _ => false
  end.

(** [a <= b] on numbers: false as soon as one side is [NaN]. *)
Definition numLe (a b : number) : bool :=
  match a, b with
  | Int x, Int y => x <=? y
  | _, _ => false
  end.

Definition numLt (a b : number) : bool :=
  match a, b with
  | Int x, Int y => x <? y
  | _, _ => false
  end.

(** [Math.min(a, b)] and [Math.max(a, b)]. *)
Definition Math_min (a b : number) : number :=
  match a, b with
  | Int x, Int y => Int (Z.min x y)
  | _, _ => NaN
  end.

Definition Math_max2 (a b : number) : number :=
  match a, b with
  | Int x, Int y => Int (Z.max x y)
  | _, _ => NaN
  end.

(** [a - b]. *)
Definition numSub (a b : number) : number :=
  match a, b with
  | Int x, Int y => Int (x - y)
  | _, _ => NaN
  end.

Definition code (c : ascii) : Z := Z.of_N (N_of_ascii c).

Definition isDigit (c : ascii) : bool := (48 <=? code c) && (code c <=? 57).

Definition isSpace (c : ascii) : bool :=
  ((9 <=? code c) && (code c <=? 13)) || (code c =? 32).

Definition isUpper (c : ascii) : bool := (65 <=? code c) && (code c <=? 90).

Definition lowerChar (c : ascii) : ascii :=
  if isUpper c then ascii_of_N (Z.to_N (code c + 32)) else c.

(** [s.toLowerCase()]. *)
Fixpoint toLowerCase (s : string) : string :=
  match s with
  | EmptyString => EmptyString
  | String c t => String (lowerChar c) (toLowerCase t)
  end.

(** [s.startsWith(p)], the anchored test behind [includes]. *)
Fixpoint startsWith (s p : string) : bool :=
  match p, s with
  | EmptyString, _ => true
  | String _ _, EmptyString => false
  | String a p', String b s' => (a =? b)%char && startsWith s' p'
  end.

(** [s.includes(p)]. *)
Fixpoint includes (s p : string) : bool :=
  startsWith s p ||
  match s with
  | EmptyString => false
  | String _ t => includes t p
  end.

Fixpoint trimStart (s : string) : string :=
  match s with
  | EmptyString => EmptyString
  | String c t => if isSpace c then trimStart t else s
  end.

Fixpoint trimEnd (s : string) : string :=
  match s with
  | EmptyString => EmptyString
  | String c t =>
      match trimEnd t with
      | EmptyString => if isSpace c then EmptyString else String c EmptyString
      | t' => String c t'
      end
  end.

(** [s.trim()]. *)
Definition trim (s : string) : string := trimEnd (trimStart s).

(** Truthiness of a string, and [a || b] on strings. *)
Definition truthy (s : string) : bool := negb (s =? "")%string.

Definition orElse (a b : string) : string := if truthy a then a else b.

(** The value of a character as a digit in a radix up to 36. *)
Definition digitValue (c : ascii) : option Z :=
  let n := code c in
  if (48 <=? n) && (n <=? 57) then Some (n - 48)
  else if (97 <=? n) && (n <=? 122) then Some (n - 87)
  else if (65 <=? n) && (n <=? 90) then Some (n - 55)
  else None.

Definition accValue (acc : number) : Z :=
  match acc with
  | Int a => a
  | NaN => 0
  end.

(** The longest prefix of digits of the radix, read as a number; [acc] is
    [NaN] until a digit has been read. *)
Fixpoint parseDigits (radix : Z) (s : string) (acc : number) : number :=
  match s with
  | EmptyString => acc
  | String c t =>
      match digitValue c with
      | Some d =>
          if d <? radix
          then parseDigits radix t (Int (radix * accValue acc + d))
          else acc
      | None => acc
      end
  end.


Fixpoint drop (n : nat) (s : string) : string :=
  match n, s with
  | O, _ => s
  | S _, EmptyString => EmptyString
  | S k, String _ t => drop k t
  end.

(** An optional sign at the head of the input. *)
Definition stripSign (s : string) : Z * string :=
  match s with
  | String c t =>
      if (c =? "-")%char then (-1, t)
      else if (c =? "+")%char then (1, t)
      else (1, s)
  | EmptyString => (1, s)
  end.

(** A [0x] or [0X] prefix selects radix 16, anything else radix 10. *)
Definition stripRadix (s : string) : Z * string :=
  if startsWith s "0x" || startsWith s "0X" then (16, drop 2 s) else (10, s).

(** [parseInt(s)] with no radix argument. *)
Definition parseInt (s : string) : number :=
  let (sign, s1) := stripSign (trimStart s) in
  let (radix, s2) := stripRadix s1 in
  match parseDigits radix s2 NaN with
  | Int n => Int (sign * n)
  | NaN => NaN
  end.

Definition digitChar (d : Z) : ascii := ascii_of_N (Z.to_N (48 + d)).

(** The decimal digits of a non-negative integer, most significant first. *)
Fixpoint natDigits (fuel : nat) (n : Z) (acc : string) : string :=
  let acc' := String (digitChar (n mod 10)) acc in
  match fuel with
  | O => acc'
  | S f => if n <? 10 then acc' else natDigits f (n / 10) acc'
  end.

(** Enough fuel for the digits of [n]: a number has no more decimal digits
    than binary ones. *)
Definition digitsBound (n : Z) : nat := Z.to_nat (Z.log2 n).

(** [String(n)], which is also how a template literal prints a number. *)
Definition toString (n : number) : string :=
  match n with
  | NaN => "NaN"
  | Int z =>
      if z <? 0 then String "-"%char (natDigits (digitsBound (- z)) (- z) "")
      else natDigits (digitsBound z) z ""
  end.

Fixpoint repeatStr (s : string) (n : nat) : string :=
  match n with
  | O => EmptyString
  | S k => s ++ repeatStr s k
  end.

(** [s.padStart(n, "0")]. *)
Definition padStart0 (s : string) (n : nat) : string :=
  repeatStr "0" (n - String.length s) ++ s.

(** [s.slice(start)]: a negative [start] counts from the end. *)
Definition slice (s : string) (start : Z) : string :=
  let len := Z.of_nat (String.length s) in
  let from := if start <? 0 then Z.max (len + start) 0 else Z.min start len in
  drop (Z.to_nat from) s.

(** The regular-expression pieces the script uses. *)
Fixpoint allDigits (s : string) : bool :=
  match s with
  | EmptyString => true
  | String c t => isDigit c && allDigits t
  end.

(** The longest run of digits at the head of [s], and what follows it. *)
Fixpoint spanDigits (s : string) : string * string :=
  match s with
  | EmptyString => (EmptyString, EmptyString)
  | String c t =>
      if isDigit c
      then let (d, r) := spanDigits t in (String c d, r)
      else (EmptyString, s)
  end.

(** The character class [[\/\-\.]]. *)
Definition isSep (c : ascii) : bool :=
  (c =? "/")%char || (c =? "-")%char || (c =? ".")%char.

(** [\d{lo,hi}] at the end of the input: [(\d{lo,hi})$]. *)
Definition digitsToEnd (lo hi : nat) (s : string) : bool :=
  allDigits s && (lo <=? String.length s)%nat && (String.length s <=? hi)%nat.

(** [(\d{lo,hi})[\/\-\.]] at the head of the input: the captured group and
    the rest.  A separator is no digit, so the group is the whole run. *)
Definition digitsThenSep (lo hi : nat) (s : string) : option (string * string) :=
  let (d, r) := spanDigits s in
  if (lo <=? String.length d)%nat && (String.length d <=? hi)%nat then
    match r with
    | String c r' => if isSep c then Some (d, r') else None
    | EmptyString => None
    end
  else None.

(** [/^(\d{4})$/] *)
Definition matchYearOnly (s : string) : option string :=
  if digitsToEnd 4 4 s then Some s else None.

(** [/^(\d{1,2})[\/\-\.](\d{1,2})[\/\-\.](\d{4})$/] *)
Definition matchDMY (s : string) : option (string * string * string) :=
  match digitsThenSep 1 2 s with
  | Some (g1, r1) =>
      match digitsThenSep 1 2 r1 with
      | Some (g2, g3) => if digitsToEnd 4 4 g3 then Some (g1, g2, g3) else None
      | None => None
      end
  | None => None
  end.

(** [/^(\d{4})[\/\-\.](\d{1,2})[\/\-\.](\d{1,2})$/] *)
Definition matchISO (s : string) : option (string * string * string) :=
  match digitsThenSep 4 4 s with
  | Some (g1, r1) =>
      match digitsThenSep 1 2 r1 with
      | Some (g2, g3) => if digitsToEnd 1 2 g3 then Some (g1, g2, g3) else None
      | None => None
      end
  | None => None
  end.

End JS.

Import JS.

(** ** Date normalizer *)

Record CanonicalDate : Type := mkDate {
  day : number;
  month : number;
  year : number;
  yearOnly : bool   (* [true] when the property is present; the script only ever sets it to [true] *)
}.

(** [parseDate(dateStr)], content.js 411-463. *)
Definition parseDate (dateStr : string) : option CanonicalDate :=
  if negb (truthy dateStr) then None else
  match matchYearOnly dateStr with
  | Some g =>
      Some {| day := Int 1; month := Int 1; year := parseInt g; yearOnly := true |}
  | None =>
      match matchDMY dateStr with
      | Some (g1, g2, g3) =>
          let first := parseInt g1 in
          let second := parseInt g2 in
          let year := parseInt g3 in
          if numLe second (Int 12) then
            Some {| day := first; month := second; year := year; yearOnly := false |}
          else if numLe first (Int 12) then
            Some {| day := second; month := first; year := year; yearOnly := false |}
          else
            Some {| day := first; month := Math_min second (Int 12);
                    year := year; yearOnly := false |}
      | None =>
          match matchISO dateStr with
          | Some (g1, g2, g3) =>
              Some {| day := parseInt g3; month := parseInt g2;
                      year := parseInt g1; yearOnly := false |}
          | None => None
          end
      end
  end.

(** The table [monthNames] of [formatDateToExpected]. *)
Definition monthNames : list string :=
  ["Jan"; "Feb"; "Mar"; "Apr"; "May"; "Jun"; "Jul"; "Aug"; "Sep"; "Oct"; "Nov"; "Dec"].

(** [arr[i]] printed in a template literal: ["undefined"] out of range. *)
Definition arrayAt (arr : list string) (i : number) : string :=
  match i with
  | Int z => if z <? 0 then "undefined" else nth (Z.to_nat z) arr "undefined"
  | NaN => "undefined"
  end.

(** [formatDateToExpected(dateObj, format)], content.js 538-559. *)
Definition formatDateToExpected (dateObj : CanonicalDate) (format : string) : string :=
  let d := padStart0 (toString (day dateObj)) 2 in
  let m := padStart0 (toString (month dateObj)) 2 in
  let y := toString (year dateObj) in
  let monthName := arrayAt monthNames (numSub (month dateObj) (Int 1)) in
  if (format =? "DD-Mon-YYYY")%string then d ++ "-" ++ monthName ++ "-" ++ y
  else if (format =? "DD/MM/YYYY")%string then d ++ "/" ++ m ++ "/" ++ y
  else if (format =? "DD-MM-YYYY")%string then d ++ "-" ++ m ++ "-" ++ y
  else if (format =? "MM/DD/YYYY")%string then m ++ "/" ++ d ++ "/" ++ y
  else if (format =? "YYYY-MM-DD")%string then y ++ "-" ++ m ++ "-" ++ d
  else d ++ "/" ++ m ++ "/" ++ y.

(** ** The page: controls and their context *)

Record OptionEl : Type := mkOption {
  opt_value : string;
  opt_text : string
}.

(** A control as the script sees it.  Absent attributes read as the empty
    string (the script writes [input.name || '']).  The three label fields
    are what the DOM queries of [getFieldLabel] find; [dispatched] logs the
    types of the events dispatched on the control, oldest first. *)
Record Element : Type := mkElement {
  el_tagName : string;
  el_type : string;
  el_name : string;
  el_id : string;
  el_placeholder : string;
  el_ariaLabel : string;
  el_value : string;
  el_checked : bool;
  el_options : list OptionEl;
  el_labelFor : option string;        (* text of [label[for=id]], if the document has one *)
  el_closestLabel : option string;    (* text of [input.closest('label')] *)
  el_previousSibling : option (string * string);  (* tag name and text of [previousElementSibling] *)
  dispatched : list string
}.

Definition setValue (el : Element) (v : string) : Element :=
  mkElement (el_tagName el) (el_type el) (el_name el) (el_id el) (el_placeholder el)
            (el_ariaLabel el) v (el_checked el) (el_options el) (el_labelFor el)
            (el_closestLabel el) (el_previousSibling el) (dispatched el).

Definition setChecked (el : Element) (b : bool) : Element :=
  mkElement (el_tagName el) (el_type el) (el_name el) (el_id el) (el_placeholder el)
            (el_ariaLabel el) (el_value el) b (el_options el) (el_labelFor el)
            (el_closestLabel el) (el_previousSibling el) (dispatched el).

(** [element.dispatchEvent(new Event(ev, { bubbles: true }))]. *)
Definition dispatchEvent (el : Element) (ev : string) : Element :=
  mkElement (el_tagName el) (el_type el) (el_name el) (el_id el) (el_placeholder el)
            (el_ariaLabel el) (el_value el) (el_checked el) (el_options el) (el_labelFor el)
            (el_closestLabel el) (el_previousSibling el) (dispatched el ++ [ev])%list.

(** ** Field classifier *)

(** [FIELD_MAPPING], content.js 21-44, in the order [Object.entries] visits it. *)
Definition FIELD_MAPPING : list (string * list string) :=
  [ ("name", ["name"; "full_name"; "fullname"; "applicant_name"; "applicantname"]);
    ("full_name", ["name"; "full_name"; "fullname"; "applicant_name"]);
    ("father_name", ["father_name"; "fathername"; "father"; "guardian_name"; "father_husband"]);
    ("aadhaar_number", ["aadhaar"; "aadhar"; "aadhaar_no"; "uid"; "uidai"]);
    ("pan_number", ["pan"; "pan_no"; "pancard"; "pan_number"]);
    ("voter_id_number", ["voter_id"; "voterid"; "epic"; "epic_no"]);
    ("date_of_birth", ["dob"; "date_of_birth"; "dateofbirth"; "birth_date"; "birthdate"]);
    ("gender", ["gender"; "sex"]);
    ("address", ["address"; "full_address"; "residential_address"; "permanent_address"]);
    ("mobile_number", ["mobile"; "mobile_no"; "mobile_number"; "phone"; "phone_no";
                       "phone_number"; "contact"; "contact_no"; "cell"]);
    ("email", ["email"; "email_id"; "emailid"; "mail"; "mail_id"; "email_address"]);
    ("community", ["community"; "caste"; "category"]);
    ("annual_income", ["income"; "annual_income"; "yearly_income"]) ].

(** The closed vocabulary of semantic field types of the specification. *)
Definition vocabulary : list string :=
  [ "full_name"; "full_name_regional"; "father_name"; "aadhaar_number"; "pan_number";
    "voter_id_number"; "driving_license_number"; "date_of_birth"; "gender"; "address";
    "mobile_number"; "email"; "community"; "annual_income"; "blood_group" ].

Record FieldInfo : Type := mkFieldInfo {
  fieldType : string;
  identifier : string;
  label : string
}.

(** [getFieldLabel(input)], content.js 171-189. *)
Definition getFieldLabel (input : Element) : string :=
  match (if truthy (el_id input) then el_labelFor input else None) with
  | Some t => trim t
  | None =>
      match el_closestLabel input with
      | Some t => trim t
      | None =>
          match el_previousSibling input with
          | Some (tag, t) =>
              if (tag =? "LABEL")%string || (tag =? "SPAN")%string then trim t else ""
          | None => ""
          end
      end
  end.

(** The identifier bag of [identifyField]: [[...].filter(Boolean)]. *)
Definition identifiers (input : Element) : list string :=
  filter truthy
    [ toLowerCase (el_name input); toLowerCase (el_id input);
      toLowerCase (el_placeholder input); toLowerCase (getFieldLabel input);
      toLowerCase (el_ariaLabel input) ].

(** The test of the innermost loop. *)
Definition matchesIdentifier (pattern identifier : string) : bool :=
  includes identifier pattern || includes pattern identifier.

(** The three nested loops: the first field type, in table order, one of
    whose patterns matches one of the identifiers. *)
Fixpoint firstMatch (table : list (string * list string)) (ids : list string)
  : option string :=
  match table with
  | [] => None
  | (ft, patterns) :: rest =>
      if existsb (fun pattern => existsb (matchesIdentifier pattern) ids) patterns
      then Some ft
      else firstMatch rest ids
  end.

(** [identifyField(input)], content.js 138-168. *)
Definition identifyField (input : Element) : option FieldInfo :=
  if (el_type input =? "hidden")%string || (el_type input =? "submit")%string
     || (el_type input =? "button")%string
  then None
  else
    let name := toLowerCase (el_name input) in
    let id := toLowerCase (el_id input) in
    let placeholder := toLowerCase (el_placeholder input) in
    let label := toLowerCase (getFieldLabel input) in
    match firstMatch FIELD_MAPPING (identifiers input) with
    | Some ft =>
        Some {| fieldType := ft;
                identifier := orElse name id;
                label := orElse (orElse (orElse label placeholder) name) id |}
    | None => None
    end.

(** ** Select purpose resolver and date heuristics *)

(** [isDateField(element)], content.js 466-473. *)
Definition isDateField (element : Element) : bool :=
  let name := toLowerCase (el_name element) in
  let id := toLowerCase (el_id element) in
  let placeholder := toLowerCase (el_placeholder element) in
  includes name "date" || includes name "dob" ||
  includes id "date" || includes id "dob" ||
  includes placeholder "date" || includes placeholder "dd".

(** [isDateRelatedSelect(element)], content.js 476-483. *)
Definition isDateRelatedSelect (element : Element) : bool :=
  let name := toLowerCase (el_name element) in
  let id := toLowerCase (el_id element) in
  includes name "day" || includes name "month" || includes name "year" ||
  includes name "date" || includes name "dob" ||
  includes id "day" || includes id "month" || includes id "year" ||
  includes id "date" || includes id "dob".

(** The lower-case month names: the table of [fillField] and the
    alternatives of the month pattern of [detectSelectPurpose]. *)
Definition monthAbbrevs : list string :=
  ["jan"; "feb"; "mar"; "apr"; "may"; "jun"; "jul"; "aug"; "sep"; "oct"; "nov"; "dec"].

(** [/^(jan|feb|mar|apr|may|jun|jul|aug|sep|oct|nov|dec)/i.test(v)] *)
Definition startsWithMonth (v : string) : bool :=
  existsb (startsWith (toLowerCase v)) monthAbbrevs.

(** [/^\d+$/.test(v)] *)
Definition isNumeric (v : string) : bool := allDigits v && truthy v.

(** [Math.max(...xs)] for a non-empty argument list [x :: xs]. *)
Definition Math_max (x : number) (xs : list number) : number :=
  fold_left Math_max2 xs x.

(** [o.value || o.text] *)
Definition optionKey (o : OptionEl) : string := orElse (opt_value o) (opt_text o).

(** The numeric option values of [detectSelectPurpose]. *)
Definition numericValues (options : list OptionEl) : list number :=
  map parseInt (filter isNumeric (map optionKey options)).

(** [detectSelectPurpose(element, options)], content.js 486-509. *)
Definition detectSelectPurpose (element : Element) (options : list OptionEl)
  : option string :=
  let name := toLowerCase (el_name element) in
  let id := toLowerCase (el_id element) in
  if includes name "day" || includes id "day" || includes name "dd" then Some "day"
  else if includes name "month" || includes id "month" || includes name "mm" then Some "month"
  else if includes name "year" || includes id "year" || includes name "yyyy"
          || includes name "yy" then Some "year"
  else
    let values := map optionKey options in
    if existsb startsWithMonth values then Some "month"
    else
      match numericValues options with
      | [] => None
      | x :: xs =>
          let max := Math_max x xs in
          if numLe max (Int 31) && numLe (Int 28) max then Some "day"
          else if strictEq max (Int 12)
                  || numLe max (Int 12)
                     && (List.length (x :: xs) <=? 13)%nat then Some "month"
          else if numLt (Int 1900) max then Some "year"
          else None
      end.

(** [detectDateFormat(element)], content.js 512-535. *)
Definition detectDateFormat (element : Element) : string :=
  let placeholder := toLowerCase (el_placeholder element) in
  if includes placeholder "dd-mmm-yyyy" || includes placeholder "dd-mon-yyyy"
  then "DD-Mon-YYYY"
  else if includes placeholder "dd/mm/yyyy" then "DD/MM/YYYY"
  else if includes placeholder "dd-mm-yyyy" then "DD-MM-YYYY"
  else if includes placeholder "mm/dd/yyyy" then "MM/DD/YYYY"
  else if includes placeholder "yyyy-mm-dd" then "YYYY-MM-DD"
  else "DD/MM/YYYY".

(** ** Value writer *)

(** How a block of [fillField] ends: by its early [return], or by running on
    to the statements after the [if] chain. *)
Inductive Flow : Type :=
| Returned (el : Element)
| FellThrough (el : Element).

(** [const m = options.find(p); if (m) element.value = m.value;] *)
Definition selectOption (el : Element) (options : list OptionEl) (p : OptionEl -> bool)
  : Element :=
  match find p options with
  | Some m => setValue el (opt_value m)
  | None => el
  end.

(** The option test of the generic and of the standard select handling. *)
Definition optionIs (value : string) (opt : OptionEl) : bool :=
  (toLowerCase (opt_value opt) =? toLowerCase value)%string
  || (toLowerCase (opt_text opt) =? toLowerCase value)%string.

(** The option test of the day and of the year select. *)
Definition optionIsNumber (n : number) (opt : OptionEl) : bool :=
  strictEq (parseInt (opt_value opt)) n || strictEq (parseInt (opt_text opt)) n.

(** The option test of the month select: by number or by month name. *)
Definition optionIsMonth (m : number) (opt : OptionEl) : bool :=
  let val := toLowerCase (opt_value opt) in
  let txt := toLowerCase (opt_text opt) in
  strictEq (parseInt (opt_value opt)) m
  || strictEq (parseInt (opt_text opt)) m
  || includes val (arrayAt monthAbbrevs (numSub m (Int 1)))
  || includes txt (arrayAt monthAbbrevs (numSub m (Int 1))).

Definition isDateOfBirth (fieldType : option string) : bool :=
  match fieldType with
  | Some ft => (ft =? "date_of_birth")%string
  | None => false
  end.

(** The [SELECT] branch, content.js 325-373. *)
Definition fillSelect (element : Element) (value : string) (fieldType : option string)
  : Flow :=
  let options := el_options element in
  let standard := FellThrough (selectOption element options (optionIs value)) in
  if isDateOfBirth fieldType || isDateRelatedSelect element then
    match parseDate value with
    | Some dateVal =>
        let selectPurpose := detectSelectPurpose element options in
        let el1 :=
          match selectPurpose with
          | Some "day" => selectOption element options (optionIsNumber (day dateVal))
          | Some "month" => selectOption element options (optionIsMonth (month dateVal))
          | Some "year" => selectOption element options (optionIsNumber (year dateVal))
          | _ => selectOption element options (optionIs value)
          end in
        Returned (dispatchEvent el1 "change")
    | None => standard
    end
  else standard.

(** The [if] chain of [fillField], content.js 325-403. *)
Definition fillByKind (element : Element) (value : string) (fieldType : option string)
  : Flow :=
  if (el_tagName element =? "SELECT")%string then fillSelect element value fieldType
  else if (el_type element =? "radio")%string || (el_type element =? "checkbox")%string then
    if (toLowerCase (el_value element) =? toLowerCase value)%string
    then FellThrough (setChecked element true)
    else FellThrough element
  else if (el_type element =? "date")%string then
    match parseDate value with
    | Some dateVal =>
        let formatted :=
          toString (year dateVal) ++ "-" ++ padStart0 (toString (month dateVal)) 2
          ++ "-" ++ padStart0 (toString (day dateVal)) 2 in
        FellThrough (setValue element formatted)
    | None => FellThrough (setValue element value)
    end
  else if isDateOfBirth fieldType || isDateField element then
    match parseDate value with
    | Some dateVal =>
        let expectedFormat := detectDateFormat element in
        FellThrough (setValue element (formatDateToExpected dateVal expectedFormat))
    | None => FellThrough (setValue element value)
    end
  else FellThrough (setValue element value).

(** [fillField(element, value, fieldType = null)], content.js 324-408. *)
Definition fillField (element : Element) (value : string) (fieldType : option string)
  : Element :=
  match fillByKind element value fieldType with
  | Returned el => el
  | FellThrough el => dispatchEvent (dispatchEvent el "input") "change"
  end.

(** The events a call of [fillField] dispatches on the control. *)
Definition eventsOf (before after : Element) : list string :=
  skipn (List.length (dispatched before)) (dispatched after).

(** ** Display mask *)

Definition sensitiveFields : list string :=
  ["aadhaar_number"; "pan_number"; "voter_id_number"].

(** [arr.includes(x)] on an array of strings. *)
Definition arrayIncludes (arr : list string) (x : string) : bool :=
  existsb (String.eqb x) arr.

(** [maskSensitiveValue(fieldType, value)], content.js 719-727. *)
Definition maskSensitiveValue (fieldType value : string) : string :=
  if arrayIncludes sensitiveFields fieldType && (4 <? String.length value)%nat
  then repeatStr "X" (String.length value - 4) ++ slice value (-4)
  else value.

(** ** The vocabulary of the specification *)

(** A string of between [lo] and [hi] decimal digits. *)
Definition digitString (lo hi : nat) (s : string) : Prop :=
  allDigits s = true /\ (lo <= String.length s <= hi)%nat.

Fixpoint decimalAcc (s : string) (acc : Z) : Z :=
  match s with
  | EmptyString => acc
  | String c t => decimalAcc t (10 * acc + (code c - 48))
  end.

(** The number a string of decimal digits denotes. *)
Definition decimalValue (s : string) : Z := decimalAcc s 0.

(** The three shapes [parseDate] recognizes: a bare four-digit year,
    [D[/-.]M[/-.]YYYY] and [YYYY[/-.]M[/-.]D]. *)
Definition shapeYearOnly (s : string) : Prop := digitString 4 4 s.

Definition shapeDMY (s : string) : Prop :=
  exists g1 c1 g2 c2 g3,
    s = g1 ++ String c1 (g2 ++ String c2 g3) /\
    digitString 1 2 g1 /\ isSep c1 = true /\
    digitString 1 2 g2 /\ isSep c2 = true /\ digitString 4 4 g3.

Definition shapeISO (s : string) : Prop :=
  exists g1 c1 g2 c2 g3,
    s = g1 ++ String c1 (g2 ++ String c2 g3) /\
    digitString 4 4 g1 /\ isSep c1 = true /\
    digitString 1 2 g2 /\ isSep c2 = true /\ digitString 1 2 g3.

(** The day-first rule of the specification on the two numeric groups. *)
Definition dayFirstRule (first second year : Z) : CanonicalDate :=
  if second <=? 12 then mkDate (Int first) (Int second) (Int year) false
  else if first <=? 12 then mkDate (Int second) (Int first) (Int year) false
  else mkDate (Int first) (Int (Z.min second 12)) (Int year) false.

(** The supported textual formats. *)
Definition supportedFormats : list string :=
  ["DD-Mon-YYYY"; "DD/MM/YYYY"; "DD-MM-YYYY"; "MM/DD/YYYY"; "YYYY-MM-DD"].

(** A valid canonical date: day 1-31, month 1-12, four-digit year. *)
Definition validDate (d m y : Z) : Prop :=
  1 <= d <= 31 /\ 1 <= m <= 12 /\ 1000 <= y <= 9999.

(** The range invariant the data model gives for a canonical date. *)
Definition inRange (dt : CanonicalDate) : Prop :=
  exists d m, day dt = Int d /\ month dt = Int m /\ 1 <= d <= 31 /\ 1 <= m <= 12.

(** [m] is the greatest element of [l]. *)
Definition isMaxOf (m : Z) (l : list Z) : Prop :=
  In m l /\ forall x, In x l -> x <= m.

(** The purely numeric option values of a select, as integers. *)
Definition numericOptionValues (options : list OptionEl) : list Z :=
  map decimalValue (filter isNumeric (map optionKey options)).

(** The select purpose resolver as the specification words it: every hint is
    looked up in the name and in the id, month names are looked for in the
    option texts, and a maximum of at most 12 needs at most 13 numeric
    options. *)
Definition spec_hint (name id : string) (hints : list string) : bool :=
  existsb (fun h => includes name h || includes id h) hints.

Definition spec_resolvePurpose (element : Element) (options : list OptionEl)
  : option string :=
  let name := toLowerCase (el_name element) in
  let id := toLowerCase (el_id element) in
  if spec_hint name id ["day"; "dd"] then Some "day"
  else if spec_hint name id ["month"; "mm"] then Some "month"
  else if spec_hint name id ["year"; "yyyy"; "yy"] then Some "year"
  else if existsb (fun o => startsWithMonth (opt_text o)) options then Some "month"
  else
    match map parseInt (filter isNumeric (map opt_value options)) with
    | [] => None
    | x :: xs =>
        let max := Math_max x xs in
        if numLe (Int 28) max && numLe max (Int 31) then Some "day"
        else if numLe max (Int 12) && (List.length (x :: xs) <=? 13)%nat then Some "month"
        else if numLt (Int 1900) max then Some "year"
        else None
    end.

(** The name and id hints as the script tests them. *)
Definition hintDay (element : Element) : bool :=
  let name := toLowerCase (el_name element) in
  let id := toLowerCase (el_id element) in
  includes name "day" || includes id "day" || includes name "dd".

Definition hintMonth (element : Element) : bool :=
  let name := toLowerCase (el_name element) in
  let id := toLowerCase (el_id element) in
  includes name "month" || includes id "month" || includes name "mm".

Definition hintYear (element : Element) : bool :=
  let name := toLowerCase (el_name element) in
  let id := toLowerCase (el_id element) in
  includes name "year" || includes id "year" || includes name "yyyy" || includes name "yy".

(** A control with the given type, name and id and nothing else. *)
Definition control (tag type name id : string) (options : list OptionEl) : Element :=
  mkElement tag type name id "" "" "" false options None None None [].

(** The string in which all but the last four characters of [value] are [X]. *)
Definition maskedAllButLast4 (value : string) : string :=
  repeatStr "X" (String.length value - 4) ++ drop (String.length value - 4) value.

(** ** Checks by evaluation, sample controls and the claims as stated *)

(** What follows from a character being a decimal digit, as one boolean so
    that the 256 characters can be checked by evaluation. *)
Definition digitFacts (c : ascii) : bool :=
  implb (isDigit c)
    (negb (isSpace c) && negb (isSep c)
     && negb (c =? "-")%char && negb (c =? "+")%char
     && negb (c =? "x")%char && negb (c =? "X")%char
     && match digitValue c with
        | Some d => (d =? code c - 48) && (0 <=? d) && (d <? 10)
        | None => false
        end).

(** [String(n).padStart(2, '0')], how a day or a month is printed. *)
Definition twoDigits (n : Z) : string := padStart0 (toString (Int n)) 2.

(** [n] prints as two digits that read back as [n]. *)
Definition twoDigitsOk (n : Z) : bool :=
  allDigits (twoDigits n) && (String.length (twoDigits n) =? 2)%nat
  && (decimalValue (twoDigits n) =? n).

(** [y] prints as four digits that read back as [y]. *)
Definition fourDigitsOk (y : Z) : bool :=
  allDigits (toString (Int y)) && (String.length (toString (Int y)) =? 4)%nat
  && (decimalValue (toString (Int y)) =? y).

(** The [len] integers from [lo] on. *)
Fixpoint rangeFrom (lo : Z) (len : nat) : list Z :=
  match len with
  | O => []
  | S k => lo :: rangeFrom (lo + 1) k
  end.

(** The integers from [lo] up to, not including, [hi]. *)
Definition range (lo hi : Z) : list Z := rangeFrom lo (Z.to_nat (hi - lo)).

(** The options [1] to [31] of a day select. *)
Definition dayOptions : list OptionEl :=
  map (fun n => mkOption (toString (Int n)) (toString (Int n))) (range 1 32).

(** [<select name="dob_day">] with the options [1] to [31]. *)
Definition dobDaySelect : Element :=
  control "SELECT" "select-one" "dob_day" "" dayOptions.

(** The date branch of a select is the one path that returns early. *)
Definition returnsEarly (element : Element) (value : string) (fieldType : option string)
  : bool :=
  (el_tagName element =? "SELECT")%string
  && (isDateOfBirth fieldType || isDateRelatedSelect element)
  && match parseDate value with Some _ => true | None => false end.

(** The round trip as the specification claims it: every supported format
    but month-first with a day of at most 12. *)
Definition roundTripClaim : Prop :=
  forall F d m y,
    In F supportedFormats -> validDate d m y ->
    ~ (F = "MM/DD/YYYY" /\ d <= 12) ->
    parseDate (formatDateToExpected (mkDate (Int d) (Int m) (Int y) false) F)
    = Some (mkDate (Int d) (Int m) (Int y) false).

(** The claim of the closed vocabulary. *)
Definition closedVocabularyClaim : Prop :=
  forall input info, identifyField input = Some info -> In (fieldType info) vocabulary.

(** The resolver claimed by the specification. *)
Definition resolverClaim : Prop :=
  forall element options,
    detectSelectPurpose element options = spec_resolvePurpose element options.

(** ** Further vocabulary: the characters of a date *)

(** Every character of [s] is a digit or one of the separators. *)
Fixpoint dateChars (s : string) : bool :=
  match s with
  | EmptyString => true
  | String c t => (isDigit c || isSep c) && dateChars t
  end.


(** The field types [identifyField] can answer: the keys of [FIELD_MAPPING]
    but [full_name]. *)
Definition reachableTypes : list string :=
  [ "name"; "father_name"; "aadhaar_number"; "pan_number"; "voter_id_number";
    "date_of_birth"; "gender"; "address"; "mobile_number"; "email"; "community";
    "annual_income" ].


(** A text input with the given name. *)
Definition textInput (name : string) : Element := control "INPUT" "text" name "" [].

(** The numeric formats whose text [parseDate] reads back as written. *)
Definition dayFirstOrIso : list string := ["DD/MM/YYYY"; "DD-MM-YYYY"; "YYYY-MM-DD"].

(** The options [Jan] to [Dec] of a month select. *)
Definition monthOptions : list OptionEl := map (fun m => mkOption m m) monthNames.

(** The attributes of a control that [fillField] has no business with. *)
Definition sameControl (a b : Element) : Prop :=
  el_tagName a = el_tagName b /\ el_type a = el_type b /\ el_name a = el_name b
  /\ el_id a = el_id b /\ el_placeholder a = el_placeholder b
  /\ el_ariaLabel a = el_ariaLabel b /\ el_options a = el_options b
  /\ el_labelFor a = el_labelFor b /\ el_closestLabel a = el_closestLabel b
  /\ el_previousSibling a = el_previousSibling b.

(** ** Display names: [formatFieldName] *)

Definition isLower (c : ascii) : bool := (97 <=? code c) && (code c <=? 122).

Definition upperChar (c : ascii) : ascii :=
  if isLower c then ascii_of_N (Z.to_N (code c - 32)) else c.

(** [s.toUpperCase()]. *)
Fixpoint toUpperCase (s : string) : string :=
  match s with
  | EmptyString => EmptyString
  | String c t => String (upperChar c) (toUpperCase t)
  end.

(** [s.charAt(i)]: the empty string out of range. *)
Definition charAt (s : string) (i : nat) : string :=
  match String.get i s with
  | Some c => String c EmptyString
  | None => EmptyString
  end.

(** [s.split(sep)] for a separator of one character. *)
Fixpoint split (sep : ascii) (s : string) : list string :=
  match s with
  | EmptyString => [EmptyString]
  | String c t =>
      if (c =? sep)%char then EmptyString :: split sep t
      else
        match split sep t with
        | w :: ws => String c w :: ws
        | [] => [String c EmptyString]
        end
  end.

(** [word.charAt(0).toUpperCase() + word.slice(1)] *)
Definition capitalize (word : string) : string :=
  toUpperCase (charAt word 0) ++ slice word 1.

(** [formatFieldName(fieldType)], content.js 711-716; [String.concat] is
    [Array.prototype.join]. *)
Definition formatFieldName (fieldType : string) : string :=
  String.concat " " (map capitalize (split "_" fieldType)).




(** ** Supported websites: [checkWebsite] of the background script *)

(** [s.endsWith(suffix)]. *)
Definition endsWith (s suffix : string) : bool :=
  (String.length suffix <=? String.length s)%nat
  && (drop (String.length s - String.length suffix) s =? suffix)%string.

(** What [new URL(url)] gives [checkWebsite]: the protocol and the host name. *)
Record URL : Type := mkURL {
  protocol : string;
  hostname : string
}.

(** The answers of [checkWebsite]: [{ success: true, data: { supported,
    reason } }] or [{ success: false, error }]. *)
Inductive WebsiteCheck : Type :=
| Checked (supported : bool) (reason : string)
| Failed (error : string).

Definition supportedDomains : list string :=
  [ "gov.in"; "india.gov.in"; "digitalindia.gov.in"; "uidai.gov.in";
    "incometax.gov.in"; "epfindia.gov.in" ].

(** [checkWebsite(url)], background.js 316-348.  The argument is the outcome
    of [new URL(url)], [None] when the constructor throws. *)
Definition checkWebsite (urlObj : option URL) : WebsiteCheck :=
  match urlObj with
  | None => Failed "Invalid URL"
  | Some u =>
      if negb (protocol u =? "https:")%string
      then Checked false "Only HTTPS websites are supported"
      else
        let isSupported := existsb (fun domain => endsWith (hostname u) domain)
                                   supportedDomains in
        Checked isSupported
                (if isSupported then "Website supported"
                 else "Website not in supported list")
  end.

(** [checkWebsite] answers that the website is supported. *)
Definition isSupportedWebsite (urlObj : option URL) : Prop :=
  exists reason, checkWebsite urlObj = Checked true reason.

(** ** The autofill session of a page *)

Module Session.

(** The values the background script answers with, as [Object.entries]
    lists them. *)
Definition Data : Type := list (string * string).

(** [data[key]]: [None] is [undefined]. *)
Fixpoint lookup (data : Data) (key : string) : option string :=
  match data with
  | [] => None
  | (k, v) :: rest => if (k =? key)%string then Some v else lookup rest key
  end.

(** An entry of [detectedFields]: [{ element, fieldType, identifier, label }];
    the control is named by its number in the page. *)
Record DetectedField : Type := mkDetected {
  df_element : nat;
  df_fieldType : string;
  df_identifier : string;
  df_label : string
}.

(** [event.target] of a submit or click event: a form, or a submit control
    with the form [closest('form')] finds, if any. *)
Inductive Target : Type :=
| FormTarget (form : nat)
| ControlTarget (closestForm : option nat).

(** What the script does to the world outside its own variables and the
    controls, in the order it does it. *)
Inductive Effect : Type :=
| ShowNotification (message type : string)
| SendGetAutofillData (fields : list string) (websiteUrl : string)
| SendLogConsent (action : string) (consentGiven : bool) (targetWebsite : string)
                 (formFields : list string)
| AddSubmitInterceptor
| PreventDefault
| StopPropagation
| RemoveSubmitListener (form : nat)
| SubmitForm (form : nat)
| SendResponse (success : bool).

(** The variables of the content script ([detectedFields], [autofillData],
    [isAutofillActive]), the controls of the page, the controls that carry
    the class [form-assistant-filled], the two panels when they are open
    (with what their handlers close over) and the effects so far. *)
Record State : Type := mkState {
  href : string;
  detectedFields : list DetectedField;
  autofillData : option Data;
  isAutofillActive : bool;
  elements : list Element;
  highlighted : list nat;
  consentPopup : option Data;
  verifyPopup : option Target;
  effects : list Effect
}.

Definition emit (new : list Effect) (st : State) : State :=
  mkState (href st) (detectedFields st) (autofillData st) (isAutofillActive st)
          (elements st) (highlighted st) (consentPopup st) (verifyPopup st)
          (effects st ++ new)%list.

Definition setActive (b : bool) (st : State) : State :=
  mkState (href st) (detectedFields st) (autofillData st) b
          (elements st) (highlighted st) (consentPopup st) (verifyPopup st) (effects st).

Definition setConsentPopup (p : option Data) (st : State) : State :=
  mkState (href st) (detectedFields st) (autofillData st) (isAutofillActive st)
          (elements st) (highlighted st) p (verifyPopup st) (effects st).

Definition setVerifyPopup (p : option Target) (st : State) : State :=
  mkState (href st) (detectedFields st) (autofillData st) (isAutofillActive st)
          (elements st) (highlighted st) (consentPopup st) p (effects st).

Definition setAutofillData (d : option Data) (st : State) : State :=
  mkState (href st) (detectedFields st) d (isAutofillActive st)
          (elements st) (highlighted st) (consentPopup st) (verifyPopup st) (effects st).

Definition setControls (els : list Element) (hl : list nat) (st : State) : State :=
  mkState (href st) (detectedFields st) (autofillData st) (isAutofillActive st)
          els hl (consentPopup st) (verifyPopup st) (effects st).

(** The list with its [i]-th element replaced. *)
Fixpoint replaceAt (i : nat) (el : Element) (els : list Element) : list Element :=
  match els, i with
  | [], _ => []
  | _ :: rest, O => el :: rest
  | x :: rest, S j => x :: replaceAt j el rest
  end.

(** [fillField] on the control numbered [i]. *)
Definition fillNode (i : nat) (value : string) (fieldType : option string)
           (els : list Element) : list Element :=
  match nth_error els i with
  | Some el => replaceAt i (fillField el value fieldType) els
  | None => els
  end.

(** [highlightField(element)], content.js 562-566: the class is added once. *)
Definition highlightField (i : nat) (hl : list nat) : list nat :=
  if existsb (Nat.eqb i) hl then hl else (hl ++ [i])%list.

(** [showNotification(message, type)], content.js 675-686. *)
Definition showNotification (message type : string) (st : State) : State :=
  emit [ShowNotification message type] st.


(** The body of the loop of [performAutofill] on the controls, the
    highlighted controls and [filledCount]. *)
Definition autofillField (data : Data) (acc : list Element * list nat * Z)
           (field : DetectedField) : list Element * list nat * Z :=
  let '(els, hl, filledCount) := acc in
  match lookup data (df_fieldType field) with
  | Some value =>
      if truthy value
      then (fillNode (df_element field) value (Some (df_fieldType field)) els,
            highlightField (df_element field) hl,
            filledCount + 1)
      else acc
  | None => acc
  end.

(** [performAutofill(data)], content.js 292-321. *)
Definition performAutofill (data : Data) (st : State) : State :=
  let '(els, hl, filledCount) :=
    fold_left (autofillField data) (detectedFields st)
              (elements st, highlighted st, 0) in
  emit [ ShowNotification
           ("Filled " ++ toString (Int filledCount)
            ++ " fields. Please review before submitting.") "success";
         AddSubmitInterceptor;
         SendLogConsent "autofill_request" true (href st) (map fst data) ]
       (setActive true (setControls els hl st)).

(** [[...new Set(fields)]]: the first occurrence of each string, in order. *)
Fixpoint unique (seen fields : list string) : list string :=
  match fields with
  | [] => []
  | f :: rest =>
      if existsb (String.eqb f) seen then unique seen rest
      else f :: unique (f :: seen) rest
  end.

(** [handleAutofillClick()], content.js 212-229, up to the request. *)
Definition handleAutofillClick (st : State) : State :=
  let fields := map df_fieldType (detectedFields st) in
  emit [SendGetAutofillData (unique [] fields) (href st)] st.

(** The callback of the request: the answer is [{ success: true, data: {
    fields } }] or [{ success: false, error }], [error] possibly absent. *)
Definition autofillDataResponse (response : Data + option string) (st : State) : State :=
  match response with
  | inl data => setAutofillData (Some data) (setConsentPopup (Some data) st)
  | inr error =>
      showNotification
        (match error with
         | Some e => orElse e "Failed to get autofill data"
         | None => "Failed to get autofill data"
         end) "error" st
  end.

(** The preview rows of the consent panel, content.js 242-250. *)
Definition consentRows (data : Data) : list (string * string) :=
  map (fun '(field, value) => (formatFieldName field, maskSensitiveValue field value)) data.

(** The click handler of the confirm button of the consent panel,
    content.js 279-288. *)
Definition confirmAutofill (checked : bool) (st : State) : State :=
  match consentPopup st with
  | None => st
  | Some data =>
      if negb checked
      then showNotification "Please provide consent to continue" "warning" st
      else performAutofill data (setConsentPopup None st)
  end.

(** The close and the cancel button of the consent panel. *)
Definition cancelAutofill (st : State) : State := setConsentPopup None st.

(** The rows of the verification panel, content.js 596-606. *)
Definition verificationRows (st : State) : list (string * string) :=
  flat_map
    (fun field =>
       match nth_error (elements st) (df_element field) with
       | Some el =>
           if truthy (el_value el)
           then [(orElse (df_label field) (df_fieldType field),
                  maskSensitiveValue (df_fieldType field) (el_value el))]
           else []
       | None => []
       end)
    (detectedFields st).

(** [handleFormSubmit(event)], content.js 581-588, with the panel
    [showSubmissionVerification] opens. *)
Definition handleFormSubmit (target : Target) (st : State) : State :=
  if negb (isAutofillActive st) then st
  else setVerifyPopup (Some target) (emit [PreventDefault; StopPropagation] st).

(** The cancel button of the verification panel, content.js 634-636. *)
Definition cancelSubmit (st : State) : State := setVerifyPopup None st.

(** The confirm button of the verification panel, content.js 639-661. *)
Definition confirmSubmit (st : State) : State :=
  match verifyPopup st with
  | None => st
  | Some target =>
      let st1 := setActive false (setVerifyPopup None st) in
      let st2 :=
        emit [SendLogConsent "form_submission" true (href st)
                             (map df_fieldType (detectedFields st))] st1 in
      match target with
      | FormTarget form => emit [RemoveSubmitListener form; SubmitForm form] st2
      | ControlTarget (Some form) => emit [SubmitForm form] st2
      | ControlTarget None => st2
      end
  end.

(** [applyVoiceInput({ fieldType, value })], content.js 665-672. *)
Definition applyVoiceInput (fieldType value : string) (st : State) : State :=
  match find (fun f => (df_fieldType f =? fieldType)%string) (detectedFields st) with
  | Some field =>
      showNotification
        ("Voice input applied to " ++ formatFieldName fieldType) "success"
        (setControls (fillNode (df_element field) value None (elements st))
                     (highlightField (df_element field) (highlighted st)) st)
  | None => st
  end.

(** What happens on the page. *)
Inductive Event : Type :=
| AutofillClick
| AutofillDataResponse (response : Data + option string)
| ConfirmAutofill (checked : bool)
| CancelAutofill
| Submit (target : Target)
| CancelSubmit
| ConfirmSubmit
| AutofillFormMessage (data : Data)          (* [handleMessage], case [AUTOFILL_FORM] *)
| VoiceInputMessage (fieldType value : string). (* [handleMessage], case [APPLY_VOICE_INPUT] *)

Definition step (st : State) (e : Event) : State :=
  match e with
  | AutofillClick => handleAutofillClick st
  | AutofillDataResponse response => autofillDataResponse response st
  | ConfirmAutofill checked => confirmAutofill checked st
  | CancelAutofill => cancelAutofill st
  | Submit target => handleFormSubmit target st
  | CancelSubmit => cancelSubmit st
  | ConfirmSubmit => confirmSubmit st
  | AutofillFormMessage data => emit [SendResponse true] (performAutofill data st)
  | VoiceInputMessage fieldType value =>
      emit [SendResponse true] (applyVoiceInput fieldType value st)
  end.

Definition run (st : State) (events : list Event) : State := fold_left step events st.

(** The events that fill without the consent panel, and the one that
    confirms it with the box checked. *)
Definition fills (e : Event) : bool :=
  match e with
  | ConfirmAutofill true | AutofillFormMessage _ | VoiceInputMessage _ _ => true
  | _ => false
  end.

(** The effects that reach a form or report a consent. *)
Definition touchesForm (f : Effect) : bool :=
  match f with
  | SendLogConsent _ _ _ _ | PreventDefault | StopPropagation
  | RemoveSubmitListener _ | SubmitForm _ | AddSubmitInterceptor => true
  | _ => false
  end.

End Session.

(** A page on which detection has run and nothing else has happened. *)
Definition detectedPage (href : string) (fields : list Session.DetectedField)
           (els : list Element) : Session.State :=
  Session.mkState href fields None false els [] None None [].

(** A page with one text input called [aadhaar], detected as such. *)
Definition aadhaarPage : Session.State :=
  detectedPage "https://uidai.gov.in/form"
               [Session.mkDetected 0 "aadhaar_number" "aadhaar" "aadhaar"]
               [textInput "aadhaar"].

(** What confirming a submission does to the form, content.js 655-660. *)
Definition submitEffects (target : Session.Target) : list Session.Effect :=
  match target with
  | Session.FormTarget form => [Session.RemoveSubmitListener form; Session.SubmitForm form]
  | Session.ControlTarget (Some form) => [Session.SubmitForm form]
  | Session.ControlTarget None => []
  end.

(** * Properties *)

(** ** The examples of the specification, by evaluation *)

Example parseDate_day_first :
  parseDate "05/03/1990" = Some (mkDate (Int 5) (Int 3) (Int 1990) false).
Proof. reflexivity. Qed.

Example parseDate_iso :
  parseDate "1995-08-15" = Some (mkDate (Int 15) (Int 8) (Int 1995) false).
Proof. reflexivity. Qed.

Example formatDateToExpected_mon :
  formatDateToExpected (mkDate (Int 5) (Int 3) (Int 1990) false) "DD-Mon-YYYY"
  = "05-Mar-1990".
Proof. reflexivity. Qed.

Example identifyField_aadhar :
  identifyField (control "INPUT" "text" "aadhar_no" "" [])
  = Some (mkFieldInfo "aadhaar_number" "aadhar_no" "aadhar_no").
Proof. reflexivity. Qed.

Example identifyField_hidden :
  identifyField (control "INPUT" "hidden" "aadhar_no" "" []) = None.
Proof. reflexivity. Qed.

Example fillField_month_select :
  el_value (fillField (control "SELECT" "select-one" "dob_month" ""
                               (map (fun m => mkOption m m) monthNames))
                      "15/08/1995" (Some "date_of_birth"))
  = "Aug".
Proof. reflexivity. Qed.

Example fillField_native_date :
  let el := control "INPUT" "date" "birth" "" [] in
  el_value (fillField el "15/08/1995" None) = "1995-08-15"
  /\ eventsOf el (fillField el "15/08/1995" None) = ["input"; "change"].
Proof. split; reflexivity. Qed.

Example parseInt_samples :
  parseInt "08" = Int 8 /\ parseInt " 12px" = Int 12 /\ parseInt "-0x1F" = Int (-31)
  /\ parseInt "Aug" = NaN.
Proof. repeat split; reflexivity. Qed.

(** ** Characters and digit strings *)

Lemma digitFacts_all (c : ascii) : digitFacts c = true.
Proof.
  destruct c as [b0 b1 b2 b3 b4 b5 b6 b7].
  destruct b0, b1, b2, b3, b4, b5, b6, b7; reflexivity.
Qed.

Ltac digit_facts c H :=
  let F := fresh "F" in
  pose proof (digitFacts_all c) as F; unfold digitFacts in F;
  rewrite H in F; cbn [implb] in F;
  repeat (apply andb_prop in F; destruct F as [F ?]).

Lemma digit_not_space c : isDigit c = true -> isSpace c = false.
Proof. intros H. digit_facts c H. now apply negb_true_iff. Qed.

Lemma digit_not_sep c : isDigit c = true -> isSep c = false.
Proof. intros H. digit_facts c H. now apply negb_true_iff. Qed.

Lemma sep_not_digit c : isSep c = true -> isDigit c = false.
Proof.
  intros H. destruct (isDigit c) eqn:E; [|reflexivity].
  apply digit_not_sep in E. congruence.
Qed.

Lemma digit_value c :
  isDigit c = true -> digitValue c = Some (code c - 48) /\ 0 <= code c - 48 < 10.
Proof.
  intros H. digit_facts c H.
  destruct (digitValue c) as [d|]; [|discriminate].
  repeat match goal with
         | X : (_ && _)%bool = true |- _ => apply andb_prop in X; destruct X
         end.
  assert (d = code c - 48) by now apply Z.eqb_eq.
  subst d. split; [reflexivity|lia].
Qed.

Lemma digit_not_sign c :
  isDigit c = true -> (c =? "-")%char = false /\ (c =? "+")%char = false.
Proof. intros H. digit_facts c H. split; now apply negb_true_iff. Qed.

Lemma digit_not_x c :
  isDigit c = true -> (c =? "x")%char = false /\ (c =? "X")%char = false.
Proof. intros H. digit_facts c H. split; now apply negb_true_iff. Qed.

Lemma append_assoc (a b c : string) : (a ++ b) ++ c = a ++ (b ++ c).
Proof. induction a as [|x a IH]; simpl; [reflexivity|now rewrite IH]. Qed.

Lemma length_append (a b : string) :
  String.length (a ++ b) = (String.length a + String.length b)%nat.
Proof. induction a as [|x a IH]; simpl; [reflexivity|now rewrite IH]. Qed.

Lemma allDigits_app (a b : string) :
  allDigits (a ++ b) = allDigits a && allDigits b.
Proof.
  induction a as [|x a IH]; simpl; [reflexivity|].
  now rewrite IH, andb_assoc.
Qed.

(** A string that holds a separator is not a string of digits. *)
Lemma allDigits_with_sep (a b : string) (c : ascii) :
  isSep c = true -> allDigits (a ++ String c b) = false.
Proof.
  intros H. rewrite allDigits_app. simpl.
  rewrite (sep_not_digit _ H). simpl. apply andb_false_r.
Qed.

(** The run of digits stops at the first character that is no digit. *)
Lemma spanDigits_app (d r : string) (c : ascii) :
  allDigits d = true -> isDigit c = false ->
  spanDigits (d ++ String c r) = (d, String c r).
Proof.
  intros Hd Hc. induction d as [|x d IH]; simpl in *.
  - now rewrite Hc.
  - apply andb_prop in Hd. destruct Hd as [Hx Hd].
    rewrite Hx, (IH Hd). reflexivity.
Qed.

Lemma spanDigits_spec (s d r : string) :
  spanDigits s = (d, r) -> s = d ++ r /\ allDigits d = true.
Proof.
  revert d r. induction s as [|x s IH]; simpl; intros d r H.
  - inversion H. now split.
  - destruct (isDigit x) eqn:Hx.
    + destruct (spanDigits s) as [d' r'] eqn:E. inversion H; subst.
      destruct (IH d' r eq_refl) as [-> Hd]. simpl. rewrite Hx, Hd. now split.
    + inversion H. now split.
Qed.

Lemma digitsToEnd_iff lo hi s : digitsToEnd lo hi s = true <-> digitString lo hi s.
Proof.
  unfold digitsToEnd, digitString. rewrite !andb_true_iff, !Nat.leb_le. tauto.
Qed.

(** The head group of the date patterns, in both directions. *)
Lemma digitsThenSep_complete lo hi d c r :
  digitString lo hi d -> isSep c = true ->
  digitsThenSep lo hi (d ++ String c r) = Some (d, r).
Proof.
  intros [Hd [Hlo Hhi]] Hc. unfold digitsThenSep.
  rewrite (spanDigits_app d r c Hd (sep_not_digit _ Hc)).
  apply Nat.leb_le in Hlo, Hhi. now rewrite Hlo, Hhi, Hc.
Qed.

Lemma digitsThenSep_sound lo hi s d r :
  digitsThenSep lo hi s = Some (d, r) ->
  exists c, s = d ++ String c r /\ digitString lo hi d /\ isSep c = true.
Proof.
  unfold digitsThenSep. destruct (spanDigits s) as [d' r'] eqn:E.
  apply spanDigits_spec in E. destruct E as [-> Hd].
  destruct ((lo <=? String.length d')%nat && (String.length d' <=? hi)%nat) eqn:L;
    [|discriminate].
  destruct r' as [|c r']; [discriminate|].
  destruct (isSep c) eqn:Hc; [|discriminate].
  intros H. inversion H; subst. exists c.
  apply andb_prop in L. destruct L as [L1 L2]. apply Nat.leb_le in L1, L2.
  repeat split; assumption.
Qed.

(** The three patterns match exactly the three shapes. *)
Lemma matchYearOnly_iff s : shapeYearOnly s <-> matchYearOnly s = Some s.
Proof.
  unfold shapeYearOnly, matchYearOnly. rewrite <- digitsToEnd_iff.
  destruct (digitsToEnd 4 4 s); split; congruence.
Qed.

Lemma matchDMY_complete g1 c1 g2 c2 g3 :
  digitString 1 2 g1 -> isSep c1 = true ->
  digitString 1 2 g2 -> isSep c2 = true -> digitString 4 4 g3 ->
  matchDMY (g1 ++ String c1 (g2 ++ String c2 g3)) = Some (g1, g2, g3).
Proof.
  intros H1 S1 H2 S2 H3. unfold matchDMY.
  rewrite (digitsThenSep_complete _ _ _ _ _ H1 S1).
  rewrite (digitsThenSep_complete _ _ _ _ _ H2 S2).
  apply digitsToEnd_iff in H3. now rewrite H3.
Qed.

Lemma matchDMY_sound s g1 g2 g3 :
  matchDMY s = Some (g1, g2, g3) ->
  exists c1 c2,
    s = g1 ++ String c1 (g2 ++ String c2 g3) /\
    digitString 1 2 g1 /\ isSep c1 = true /\
    digitString 1 2 g2 /\ isSep c2 = true /\ digitString 4 4 g3.
Proof.
  unfold matchDMY.
  destruct (digitsThenSep 1 2 s) as [[a r1]|] eqn:E1; [|discriminate].
  destruct (digitsThenSep 1 2 r1) as [[b r2]|] eqn:E2; [|discriminate].
  destruct (digitsToEnd 4 4 r2) eqn:E3; [|discriminate].
  intros H. inversion H; subst.
  apply digitsThenSep_sound in E1, E2. apply digitsToEnd_iff in E3.
  destruct E1 as [c1 [-> [D1 S1]]]. destruct E2 as [c2 [-> [D2 S2]]].
  exists c1, c2. repeat split; try assumption; apply D1 || apply D2 || apply E3.
Qed.

Lemma matchISO_complete g1 c1 g2 c2 g3 :
  digitString 4 4 g1 -> isSep c1 = true ->
  digitString 1 2 g2 -> isSep c2 = true -> digitString 1 2 g3 ->
  matchISO (g1 ++ String c1 (g2 ++ String c2 g3)) = Some (g1, g2, g3).
Proof.
  intros H1 S1 H2 S2 H3. unfold matchISO.
  rewrite (digitsThenSep_complete _ _ _ _ _ H1 S1).
  rewrite (digitsThenSep_complete _ _ _ _ _ H2 S2).
  apply digitsToEnd_iff in H3. now rewrite H3.
Qed.

Lemma matchISO_sound s g1 g2 g3 :
  matchISO s = Some (g1, g2, g3) ->
  exists c1 c2,
    s = g1 ++ String c1 (g2 ++ String c2 g3) /\
    digitString 4 4 g1 /\ isSep c1 = true /\
    digitString 1 2 g2 /\ isSep c2 = true /\ digitString 1 2 g3.
Proof.
  unfold matchISO.
  destruct (digitsThenSep 4 4 s) as [[a r1]|] eqn:E1; [|discriminate].
  destruct (digitsThenSep 1 2 r1) as [[b r2]|] eqn:E2; [|discriminate].
  destruct (digitsToEnd 1 2 r2) eqn:E3; [|discriminate].
  intros H. inversion H; subst.
  apply digitsThenSep_sound in E1, E2. apply digitsToEnd_iff in E3.
  destruct E1 as [c1 [-> [D1 S1]]]. destruct E2 as [c2 [-> [D2 S2]]].
  exists c1, c2. repeat split; try assumption; apply D1 || apply D2 || apply E3.
Qed.

Lemma shapeDMY_iff s : shapeDMY s <-> matchDMY s <> None.
Proof.
  split.
  - intros (g1 & c1 & g2 & c2 & g3 & -> & H1 & S1 & H2 & S2 & H3).
    now rewrite (matchDMY_complete _ _ _ _ _ H1 S1 H2 S2 H3).
  - destruct (matchDMY s) as [[[g1 g2] g3]|] eqn:E; [|congruence].
    intros _. apply matchDMY_sound in E. destruct E as (c1 & c2 & E).
    now exists g1, c1, g2, c2, g3.
Qed.

Lemma shapeISO_iff s : shapeISO s <-> matchISO s <> None.
Proof.
  split.
  - intros (g1 & c1 & g2 & c2 & g3 & -> & H1 & S1 & H2 & S2 & H3).
    now rewrite (matchISO_complete _ _ _ _ _ H1 S1 H2 S2 H3).
  - destruct (matchISO s) as [[[g1 g2] g3]|] eqn:E; [|congruence].
    intros _. apply matchISO_sound in E. destruct E as (c1 & c2 & E).
    now exists g1, c1, g2, c2, g3.
Qed.

(** ** [parseInt] on the captured groups *)

Lemma parseDigits_decimal (s : string) (a : Z) :
  allDigits s = true -> parseDigits 10 s (Int a) = Int (decimalAcc s a).
Proof.
  revert a. induction s as [|c s IH]; cbn [allDigits parseDigits decimalAcc];
    intros a H; [reflexivity|].
  apply andb_prop in H. destruct H as [Hc Hs].
  destruct (digit_value c Hc) as [-> Hd].
  replace (code c - 48 <? 10) with true by (symmetry; apply Z.ltb_lt; lia).
  cbn [accValue]. now rewrite IH.
Qed.

Lemma trimStart_digits (s : string) : allDigits s = true -> trimStart s = s.
Proof.
  destruct s as [|c s]; simpl; [reflexivity|]. intros H.
  apply andb_prop in H. destruct H as [Hc _].
  now rewrite (digit_not_space c Hc).
Qed.

Lemma stripSign_digits (s : string) : allDigits s = true -> stripSign s = (1, s).
Proof.
  destruct s as [|c s]; simpl; [reflexivity|]. intros H.
  apply andb_prop in H. destruct H as [Hc _].
  destruct (digit_not_sign c Hc) as [-> ->]. reflexivity.
Qed.

Lemma stripRadix_digits (s : string) : allDigits s = true -> stripRadix s = (10, s).
Proof.
  intros H. unfold stripRadix.
  assert (E : startsWith s "0x" || startsWith s "0X" = false).
  { destruct s as [|c [|c' s]]; cbn [startsWith]; try reflexivity.
    - now rewrite !andb_false_r.
    - cbn [allDigits] in H. apply andb_prop in H. destruct H as [_ H].
      apply andb_prop in H. destruct H as [Hc' _].
      destruct (digit_not_x c' Hc') as [E1 E2].
      rewrite (Ascii.eqb_sym "x" c'), E1, (Ascii.eqb_sym "X" c'), E2.
      now rewrite !andb_false_r. }
  now rewrite E.
Qed.

(** On a non-empty string of digits [parseInt] is the decimal value: the
    captured groups of the date patterns are never [NaN]. *)
Lemma parseInt_digits (s : string) :
  allDigits s = true -> s <> "" -> parseInt s = Int (decimalValue s).
Proof.
  intros H Hne. unfold parseInt.
  rewrite (trimStart_digits s H), (stripSign_digits s H), (stripRadix_digits s H).
  destruct s as [|c s]; [congruence|]. cbn [allDigits parseDigits] in *.
  apply andb_prop in H. destruct H as [Hc Hs].
  destruct (digit_value c Hc) as [-> Hd].
  replace (code c - 48 <? 10) with true by (symmetry; apply Z.ltb_lt; lia).
  rewrite (parseDigits_decimal s _ Hs). unfold decimalValue.
  cbn [decimalAcc accValue]. f_equal. lia.
Qed.

Lemma digitString_nonempty lo hi s : digitString (S lo) hi s -> s <> "".
Proof. intros [_ [H _]] ->. simpl in H. lia. Qed.

Lemma parseInt_group lo hi s :
  digitString (S lo) hi s -> parseInt s = Int (decimalValue s).
Proof.
  intros H. apply parseInt_digits; [apply H|]. eapply digitString_nonempty, H.
Qed.

(** ** [parseDate] on each of its three shapes *)

Lemma truthy_app_cons (a b : string) (c : ascii) : truthy (a ++ String c b) = true.
Proof. destruct a; reflexivity. Qed.

Lemma matchYearOnly_with_sep (a b : string) (c : ascii) :
  isSep c = true -> matchYearOnly (a ++ String c b) = None.
Proof.
  intros H. unfold matchYearOnly, digitsToEnd.
  now rewrite (allDigits_with_sep a b c H).
Qed.

Lemma parseDate_yearOnly (s : string) :
  shapeYearOnly s ->
  parseDate s = Some (mkDate (Int 1) (Int 1) (Int (decimalValue s)) true).
Proof.
  intros H. unfold parseDate.
  assert (Hne : s <> "") by (eapply digitString_nonempty, H).
  replace (truthy s) with true
    by (symmetry; apply negb_true_iff, String.eqb_neq, Hne).
  simpl. rewrite (proj1 (matchYearOnly_iff s) H).
  now rewrite (parseInt_group _ _ _ H).
Qed.

Lemma parseDate_DMY g1 c1 g2 c2 g3 :
  digitString 1 2 g1 -> isSep c1 = true ->
  digitString 1 2 g2 -> isSep c2 = true -> digitString 4 4 g3 ->
  parseDate (g1 ++ String c1 (g2 ++ String c2 g3))
  = Some (dayFirstRule (decimalValue g1) (decimalValue g2) (decimalValue g3)).
Proof.
  intros H1 S1 H2 S2 H3. unfold parseDate.
  rewrite truthy_app_cons, (matchYearOnly_with_sep _ _ _ S1). simpl.
  rewrite (matchDMY_complete _ _ _ _ _ H1 S1 H2 S2 H3).
  rewrite (parseInt_group _ _ _ H1), (parseInt_group _ _ _ H2), (parseInt_group _ _ _ H3).
  unfold dayFirstRule. simpl.
  destruct (decimalValue g2 <=? 12); [reflexivity|].
  destruct (decimalValue g1 <=? 12); reflexivity.
Qed.

Lemma matchDMY_four_digits g1 c1 r :
  digitString 4 4 g1 -> isSep c1 = true -> matchDMY (g1 ++ String c1 r) = None.
Proof.
  intros [Hd [Hlo Hhi]] S1. unfold matchDMY, digitsThenSep.
  rewrite (spanDigits_app g1 r c1 Hd (sep_not_digit _ S1)).
  replace (String.length g1 <=? 2)%nat with false
    by (symmetry; apply Nat.leb_gt; lia).
  now rewrite andb_false_r.
Qed.

Lemma parseDate_ISO g1 c1 g2 c2 g3 :
  digitString 4 4 g1 -> isSep c1 = true ->
  digitString 1 2 g2 -> isSep c2 = true -> digitString 1 2 g3 ->
  parseDate (g1 ++ String c1 (g2 ++ String c2 g3))
  = Some (mkDate (Int (decimalValue g3)) (Int (decimalValue g2))
                 (Int (decimalValue g1)) false).
Proof.
  intros H1 S1 H2 S2 H3. unfold parseDate.
  rewrite truthy_app_cons, (matchYearOnly_with_sep _ _ _ S1). simpl.
  rewrite (matchDMY_four_digits _ _ _ H1 S1).
  rewrite (matchISO_complete _ _ _ _ _ H1 S1 H2 S2 H3).
  now rewrite (parseInt_group _ _ _ H1), (parseInt_group _ _ _ H2), (parseInt_group _ _ _ H3).
Qed.

(** Outside the three shapes there is no result. *)
Lemma parseDate_no_shape (s : string) :
  ~ shapeYearOnly s -> ~ shapeDMY s -> ~ shapeISO s -> parseDate s = None.
Proof.
  intros HY HD HI. unfold parseDate.
  destruct (negb (truthy s)); [reflexivity|].
  destruct (matchYearOnly s) as [g|] eqn:EY.
  - exfalso. apply HY. apply matchYearOnly_iff.
    unfold matchYearOnly in *. destruct (digitsToEnd 4 4 s); congruence.
  - destruct (matchDMY s) as [[[a b] c]|] eqn:ED.
    + exfalso. apply HD, shapeDMY_iff. congruence.
    + destruct (matchISO s) as [[[a b] c]|] eqn:EI; [|reflexivity].
      exfalso. apply HI, shapeISO_iff. congruence.
Qed.

(** C1. On every string of the shape [D[/-.]M[/-.]YYYY], with one or two
    digits in the first and in the second group and four in the year,
    [parseDate] applies the day-first rule: second group at most 12, day is
    the first group and month the second; else first group at most 12, the
    two are swapped; else day is the first group and month the second
    clamped to 12. *)
Theorem parseDate_day_first_rule :
  forall g1 c1 g2 c2 g3,
    digitString 1 2 g1 -> isSep c1 = true ->
    digitString 1 2 g2 -> isSep c2 = true -> digitString 4 4 g3 ->
    let first := decimalValue g1 in
    let second := decimalValue g2 in
    let year := decimalValue g3 in
    parseDate (g1 ++ String c1 (g2 ++ String c2 g3))
    = Some (if second <=? 12 then mkDate (Int first) (Int second) (Int year) false
            else if first <=? 12 then mkDate (Int second) (Int first) (Int year) false
            else mkDate (Int first) (Int (Z.min second 12)) (Int year) false).
Proof.
  intros g1 c1 g2 c2 g3 H1 S1 H2 S2 H3. cbv zeta.
  rewrite (parseDate_DMY _ _ _ _ _ H1 S1 H2 S2 H3). reflexivity.
Qed.

Ltac digit_string := split; [reflexivity | simpl; lia].

(** The example of the specification, ["03/25/1990"], through the rule. *)
Lemma parseDate_day_first_rule_witness :
  parseDate "03/25/1990" = Some (mkDate (Int 25) (Int 3) (Int 1990) false).
Proof.
  apply (parseDate_day_first_rule "03" "/" "25" "/" "1990");
    solve [digit_string | reflexivity].
Defined.

(** C7. A bare four-digit year parses to the first of January of that year
    with [yearOnly] set, and a string of none of the three shapes parses to
    no result; [parseDate] is a total function, so there is no other
    outcome. *)
Theorem parseDate_year_only_and_null :
  (forall s, shapeYearOnly s ->
             parseDate s = Some (mkDate (Int 1) (Int 1) (Int (decimalValue s)) true))
  /\ (forall s, ~ shapeYearOnly s -> ~ shapeDMY s -> ~ shapeISO s ->
                parseDate s = None).
Proof.
  split; [exact parseDate_yearOnly | exact parseDate_no_shape].
Qed.

Lemma parseDate_year_only_and_null_witness :
  parseDate "1990" = Some (mkDate (Int 1) (Int 1) (Int 1990) true)
  /\ parseDate "15 Aug 1995" = None.
Proof.
  split.
  - apply (proj1 parseDate_year_only_and_null "1990"). digit_string.
  - apply (proj2 parseDate_year_only_and_null "15 Aug 1995").
    + intros [H _]. discriminate H.
    + intros H. apply shapeDMY_iff in H. apply H. reflexivity.
    + intros H. apply shapeISO_iff in H. apply H. reflexivity.
Defined.

(** C3. The range invariant of a canonical date does not hold of what
    [parseDate] returns: neither the day nor the lower bounds are checked,
    and the ISO shape is not checked at all.  A month of 0 then reads past
    the table of month names when the date is printed. *)
Theorem parseDate_out_of_range :
  parseDate "45/50/1990" = Some (mkDate (Int 45) (Int 12) (Int 1990) false)
  /\ parseDate "00/00/1990" = Some (mkDate (Int 0) (Int 0) (Int 1990) false)
  /\ parseDate "1990-13-45" = Some (mkDate (Int 45) (Int 13) (Int 1990) false)
  /\ ~ inRange (mkDate (Int 45) (Int 12) (Int 1990) false)
  /\ ~ inRange (mkDate (Int 0) (Int 0) (Int 1990) false)
  /\ ~ inRange (mkDate (Int 45) (Int 13) (Int 1990) false)
  /\ formatDateToExpected (mkDate (Int 0) (Int 0) (Int 1990) false) "DD-Mon-YYYY"
     = "00-undefined-1990".
Proof.
  repeat split; try reflexivity;
    intros (d & m & Hd & Hm & Rd & Rm); simpl in Hd, Hm;
    inversion Hd; inversion Hm; lia.
Qed.

(** ** Printing the fields of a date *)

Lemma in_rangeFrom len : forall lo z, lo <= z < lo + Z.of_nat len -> In z (rangeFrom lo len).
Proof.
  induction len as [|k IH]; intros lo z H; [lia|].
  destruct (Z.eq_dec z lo) as [->|Hne]; [now left|].
  right. apply IH. lia.
Qed.

Lemma in_range lo hi z : lo <= z < hi -> In z (range lo hi).
Proof. intros H. apply in_rangeFrom. lia. Qed.

Lemma twoDigitsOk_all : forallb twoDigitsOk (range 0 100) = true.
Proof. vm_cast_no_check (eq_refl true). Qed.

Lemma fourDigitsOk_all : forallb fourDigitsOk (range 1000 10000) = true.
Proof. vm_cast_no_check (eq_refl true). Qed.

(** A day or a month prints as two digits that read back as the number. *)
Lemma twoDigits_spec (n : Z) :
  0 <= n <= 99 ->
  digitString 1 2 (twoDigits n) /\ String.length (twoDigits n) = 2%nat
  /\ decimalValue (twoDigits n) = n.
Proof.
  intros H.
  assert (E : twoDigitsOk n = true).
  { apply (proj1 (forallb_forall _ _) twoDigitsOk_all). apply in_range. lia. }
  unfold twoDigitsOk in E. rewrite !andb_true_iff in E.
  destruct E as [[E1 E2] E3]. apply Nat.eqb_eq in E2. apply Z.eqb_eq in E3.
  unfold digitString. rewrite E1, E2, E3. repeat split; lia.
Qed.

(** A four-digit year prints as four digits that read back as the year. *)
Lemma fourDigits_spec (y : Z) :
  1000 <= y <= 9999 ->
  digitString 4 4 (toString (Int y)) /\ decimalValue (toString (Int y)) = y.
Proof.
  intros H.
  assert (E : fourDigitsOk y = true).
  { apply (proj1 (forallb_forall _ _) fourDigitsOk_all). apply in_range. lia. }
  unfold fourDigitsOk in E. rewrite !andb_true_iff in E.
  destruct E as [[E1 E2] E3]. apply Nat.eqb_eq in E2. apply Z.eqb_eq in E3.
  unfold digitString. rewrite E1, E2, E3. repeat split; lia.
Qed.

(** In general: the digits [String] prints are read back by [parseInt]. *)
Lemma digitChar_digit (d : Z) :
  0 <= d < 10 -> isDigit (digitChar d) = true /\ code (digitChar d) - 48 = d.
Proof.
  intros H.
  assert (C : d = 0 \/ d = 1 \/ d = 2 \/ d = 3 \/ d = 4 \/ d = 5 \/ d = 6
              \/ d = 7 \/ d = 8 \/ d = 9) by lia.
  repeat (destruct C as [C|C]; [subst d; split; reflexivity|]).
  subst d; split; reflexivity.
Qed.

Lemma decimalAcc_app (x y : string) : forall a,
  decimalAcc (x ++ y) a = decimalAcc y (decimalAcc x a).
Proof. induction x as [|c x IH]; intros a; cbn; [reflexivity|apply IH]. Qed.

Lemma append_nil_r (s : string) : s ++ "" = s.
Proof. induction s as [|c s IH]; cbn; [reflexivity|now rewrite IH]. Qed.

Lemma natDigits_spec (fuel : nat) : forall n acc,
  0 <= n < 10 ^ Z.of_nat (S fuel) ->
  exists ds,
    natDigits fuel n acc = ds ++ acc /\ allDigits ds = true /\ ds <> ""
    /\ forall a, decimalAcc ds a = a * 10 ^ Z.of_nat (String.length ds) + n.
Proof.
  assert (Base : forall n acc, 0 <= n < 10 ->
            exists ds,
              String (digitChar (n mod 10)) acc = ds ++ acc /\ allDigits ds = true
              /\ ds <> ""
              /\ forall a, decimalAcc ds a = a * 10 ^ Z.of_nat (String.length ds) + n).
  { intros n acc H. rewrite (Z.mod_small n 10 H).
    destruct (digitChar_digit n H) as [D V].
    exists (String (digitChar n) ""). repeat split.
    - cbn. now rewrite D.
    - discriminate.
    - intros a. cbn [decimalAcc String.length]. rewrite V.
      change (10 ^ Z.of_nat 1) with 10. lia. }
  induction fuel as [|f IH]; intros n acc H.
  - apply Base. change (10 ^ Z.of_nat 1) with 10 in H. exact H.
  - cbn [natDigits]. destruct (n <? 10) eqn:L.
    + apply Base. apply Z.ltb_lt in L. lia.
    + apply Z.ltb_ge in L.
      assert (P : 10 ^ Z.of_nat (S (S f)) = 10 * 10 ^ Z.of_nat (S f)).
      { rewrite (Nat2Z.inj_succ (S f)). apply Z.pow_succ_r. lia. }
      assert (Q : 0 <= n / 10 < 10 ^ Z.of_nat (S f)).
      { split; [apply Z.div_pos; lia|]. apply Z.div_lt_upper_bound; lia. }
      destruct (Z.mod_pos_bound n 10 ltac:(lia)) as [M0 M1].
      destruct (digitChar_digit (n mod 10) (conj M0 M1)) as [D V].
      destruct (IH (n / 10) (String (digitChar (n mod 10)) acc) Q)
        as (ds & E & A & _ & R).
      exists (ds ++ String (digitChar (n mod 10)) ""). repeat split.
      * rewrite E, append_assoc. reflexivity.
      * rewrite allDigits_app, A. cbn. now rewrite D.
      * destruct ds; discriminate.
      * intros a. rewrite decimalAcc_app, R. cbn [decimalAcc]. rewrite V.
        rewrite length_append. cbn [String.length].
        rewrite Nat2Z.inj_add, Z.pow_add_r by lia.
        change (10 ^ Z.of_nat 1) with 10.
        pose proof (Z.div_mod n 10 ltac:(lia)) as DM. lia.
Qed.

Lemma digitsBound_enough (n : Z) : 0 <= n -> n < 10 ^ Z.of_nat (S (digitsBound n)).
Proof.
  intros H. unfold digitsBound.
  rewrite Nat2Z.inj_succ, Z2Nat.id by apply Z.log2_nonneg.
  destruct (Z.eq_dec n 0) as [->|N]; [reflexivity|].
  destruct (Z.log2_spec n ltac:(lia)) as [_ U].
  eapply Z.lt_le_trans; [exact U|].
  apply Z.pow_le_mono_l. lia.
Qed.

Lemma parseInt_toString (n : Z) : 0 <= n -> parseInt (toString (Int n)) = Int n.
Proof.
  intros H. cbn [toString].
  replace (n <? 0) with false by (symmetry; apply Z.ltb_ge; exact H).
  destruct (natDigits_spec (digitsBound n) n "" (conj H (digitsBound_enough n H)))
    as (ds & E & A & N & R).
  rewrite E, append_nil_r, (parseInt_digits ds A N).
  unfold decimalValue. rewrite R. reflexivity.
Qed.

(** ** Formatting and parsing back *)

Section RoundTrip.

Variables (d m y : Z) (yo : bool).
Hypothesis valid : validDate d m y.

Lemma valid_fields :
  digitString 1 2 (twoDigits d) /\ digitString 1 2 (twoDigits m)
  /\ digitString 4 4 (toString (Int y))
  /\ decimalValue (twoDigits d) = d /\ decimalValue (twoDigits m) = m
  /\ decimalValue (toString (Int y)) = y.
Proof.
  unfold validDate in valid.
  destruct (twoDigits_spec d) as (Hd & _ & Vd); [lia|].
  destruct (twoDigits_spec m) as (Hm & _ & Vm); [lia|].
  destruct (fourDigits_spec y) as (Hy & Vy); [lia|].
  repeat split; solve [apply Hd | apply Hm | apply Hy | assumption].
Qed.

Ltac fields :=
  destruct valid_fields as (Hd & Hm & Hy & Vd & Vm & Vy).

Lemma format_DMY_sep (F : string) (c : ascii) :
  (F, c) = ("DD/MM/YYYY", "/"%char) \/ (F, c) = ("DD-MM-YYYY", "-"%char) ->
  formatDateToExpected (mkDate (Int d) (Int m) (Int y) yo) F
  = twoDigits d ++ String c (twoDigits m ++ String c (toString (Int y))).
Proof. intros [E|E]; inversion E; reflexivity. Qed.

Lemma format_MDY :
  formatDateToExpected (mkDate (Int d) (Int m) (Int y) yo) "MM/DD/YYYY"
  = twoDigits m ++ String "/" (twoDigits d ++ String "/" (toString (Int y))).
Proof. reflexivity. Qed.

Lemma format_ISO :
  formatDateToExpected (mkDate (Int d) (Int m) (Int y) yo) "YYYY-MM-DD"
  = toString (Int y) ++ String "-" (twoDigits m ++ String "-" (twoDigits d)).
Proof. reflexivity. Qed.

Lemma format_Mon :
  formatDateToExpected (mkDate (Int d) (Int m) (Int y) yo) "DD-Mon-YYYY"
  = twoDigits d
    ++ String "-" (arrayAt monthNames (Int (m - 1)) ++ String "-" (toString (Int y))).
Proof. reflexivity. Qed.

Lemma roundtrip_DMY (F : string) (c : ascii) :
  (F, c) = ("DD/MM/YYYY", "/"%char) \/ (F, c) = ("DD-MM-YYYY", "-"%char) ->
  parseDate (formatDateToExpected (mkDate (Int d) (Int m) (Int y) yo) F) = Some (mkDate (Int d) (Int m) (Int y) false).
Proof.
  fields.
  intros HF. rewrite (format_DMY_sep F c HF).
  assert (S : isSep c = true) by (destruct HF as [E|E]; inversion E; reflexivity).
  rewrite (parseDate_DMY _ _ _ _ _ Hd S Hm S Hy), Vd, Vm, Vy.
  unfold dayFirstRule.
  replace (m <=? 12) with true
    by (symmetry; apply Z.leb_le; unfold validDate in valid; lia).
  reflexivity.
Qed.

Lemma roundtrip_ISO :
  parseDate (formatDateToExpected (mkDate (Int d) (Int m) (Int y) yo) "YYYY-MM-DD")
  = Some (mkDate (Int d) (Int m) (Int y) false).
Proof.
  fields.
  rewrite format_ISO.
  rewrite (parseDate_ISO _ "-" _ "-" _ Hy eq_refl Hm eq_refl Hd), Vd, Vm, Vy.
  reflexivity.
Qed.

(** Month first: the two groups come back as they were written only when
    the day cannot be a month. *)
Lemma parse_MDY :
  parseDate (formatDateToExpected (mkDate (Int d) (Int m) (Int y) yo) "MM/DD/YYYY")
  = Some (if d <=? 12 then mkDate (Int m) (Int d) (Int y) false
          else mkDate (Int d) (Int m) (Int y) false).
Proof.
  fields.
  rewrite format_MDY.
  rewrite (parseDate_DMY _ "/" _ "/" _ Hm eq_refl Hd eq_refl Hy), Vd, Vm, Vy.
  unfold dayFirstRule. destruct (d <=? 12); [reflexivity|].
  replace (m <=? 12) with true
    by (symmetry; apply Z.leb_le; unfold validDate in valid; lia).
  reflexivity.
Qed.

(** A month name is none of the shapes of [parseDate]. *)
Lemma parse_Mon : parseDate (formatDateToExpected (mkDate (Int d) (Int m) (Int y) yo) "DD-Mon-YYYY") = None.
Proof.
  fields.
  rewrite format_Mon.
  assert (N : exists x r, arrayAt monthNames (Int (m - 1)) = String x r
                          /\ isDigit x = false).
  { assert (C : m = 1 \/ m = 2 \/ m = 3 \/ m = 4 \/ m = 5 \/ m = 6 \/ m = 7
                \/ m = 8 \/ m = 9 \/ m = 10 \/ m = 11 \/ m = 12)
      by (unfold validDate in valid; lia).
    repeat (destruct C as [C|C]; [rewrite C; eexists; eexists; split; reflexivity|]).
    rewrite C. eexists; eexists; split; reflexivity. }
  destruct N as (x & r & -> & Hx). cbn [append].
  unfold parseDate.
  rewrite truthy_app_cons, (matchYearOnly_with_sep _ _ "-" eq_refl).
  cbn [negb].
  assert (E1 : matchDMY (twoDigits d ++ String "-" (String x (r ++ String "-" (toString (Int y)))))
               = None).
  { unfold matchDMY. rewrite (digitsThenSep_complete 1 2 _ "-" _ Hd eq_refl).
    unfold digitsThenSep. cbn [spanDigits]. rewrite Hx. reflexivity. }
  assert (E2 : matchISO (twoDigits d ++ String "-" (String x (r ++ String "-" (toString (Int y)))))
               = None).
  { unfold matchISO, digitsThenSep.
    rewrite (spanDigits_app _ _ "-" (proj1 Hd) eq_refl).
    replace (4 <=? String.length (twoDigits d))%nat with false
      by (symmetry; apply Nat.leb_gt; destruct Hd as [_ L]; lia).
    reflexivity. }
  now rewrite E1, E2.
Qed.

End RoundTrip.

(** C2, as stated, fails: the 5th of March 1990 printed with a month name
    does not parse back. *)
Lemma roundtrip_month_name_counterexample :
  formatDateToExpected (mkDate (Int 5) (Int 3) (Int 1990) false) "DD-Mon-YYYY"
  = "05-Mar-1990"
  /\ parseDate "05-Mar-1990" = None
  /\ ~ roundTripClaim.
Proof.
  split; [reflexivity|]. split; [reflexivity|].
  intros H. specialize (H "DD-Mon-YYYY" 5 3 1990).
  assert (E : parseDate "05-Mar-1990" = None) by reflexivity.
  change (formatDateToExpected (mkDate (Int 5) (Int 3) (Int 1990) false) "DD-Mon-YYYY")
    with "05-Mar-1990" in H.
  rewrite E in H. discriminate H.
  - simpl. tauto.
  - unfold validDate. lia.
  - intros [F _]. discriminate F.
Qed.

(** C2, amended. For a valid date, printing in [DD/MM/YYYY], [DD-MM-YYYY] or
    [YYYY-MM-DD] and parsing back gives its day, month and year (with no
    [yearOnly] flag); in [MM/DD/YYYY] it does so when the day exceeds 12 and
    gives day and month swapped otherwise; in [DD-Mon-YYYY] the text does not
    parse at all. *)
Theorem roundtrip_numeric_formats :
  forall d m y yo,
    validDate d m y ->
    let dt := mkDate (Int d) (Int m) (Int y) yo in
    (forall F, In F ["DD/MM/YYYY"; "DD-MM-YYYY"; "YYYY-MM-DD"] ->
               parseDate (formatDateToExpected dt F)
               = Some (mkDate (Int d) (Int m) (Int y) false))
    /\ (12 < d -> parseDate (formatDateToExpected dt "MM/DD/YYYY")
                  = Some (mkDate (Int d) (Int m) (Int y) false))
    /\ (d <= 12 -> parseDate (formatDateToExpected dt "MM/DD/YYYY")
                   = Some (mkDate (Int m) (Int d) (Int y) false))
    /\ parseDate (formatDateToExpected dt "DD-Mon-YYYY") = None.
Proof.
  intros d m y yo V dt. subst dt. repeat split.
  - intros F [<-|[<-|[<-|[]]]].
    + apply (roundtrip_DMY d m y yo V _ "/"). now left.
    + apply (roundtrip_DMY d m y yo V _ "-"). now right.
    + apply (roundtrip_ISO d m y yo V).
  - intros H. rewrite (parse_MDY d m y yo V).
    replace (d <=? 12) with false by (symmetry; apply Z.leb_gt; lia). reflexivity.
  - intros H. rewrite (parse_MDY d m y yo V).
    replace (d <=? 12) with true by (symmetry; apply Z.leb_le; lia). reflexivity.
  - apply (parse_Mon d m y yo V).
Qed.

Lemma roundtrip_numeric_formats_witness :
  parseDate (formatDateToExpected (mkDate (Int 15) (Int 8) (Int 1995) false) "DD-MM-YYYY")
  = Some (mkDate (Int 15) (Int 8) (Int 1995) false)
  /\ parseDate (formatDateToExpected (mkDate (Int 15) (Int 8) (Int 1995) false) "MM/DD/YYYY")
     = Some (mkDate (Int 15) (Int 8) (Int 1995) false).
Proof.
  assert (V : validDate 15 8 1995) by (unfold validDate; lia).
  destruct (roundtrip_numeric_formats 15 8 1995 false V) as (A & B & _ & _).
  split.
  - apply A. simpl. tauto.
  - apply B. lia.
Defined.

(** ** Field classifier *)

Lemma firstMatch_in_table table ids ft :
  firstMatch table ids = Some ft -> In ft (map fst table).
Proof.
  induction table as [|[k patterns] rest IH]; simpl; [discriminate|].
  destruct (existsb _ patterns).
  - intros H. inversion H. now left.
  - intros H. right. now apply IH.
Qed.

Lemma identifyField_fieldType input info :
  identifyField input = Some info ->
  firstMatch FIELD_MAPPING (identifiers input) = Some (fieldType info).
Proof.
  unfold identifyField.
  destruct (_ || _ || _); [discriminate|].
  destruct (firstMatch FIELD_MAPPING (identifiers input)) as [ft|]; [|discriminate].
  intros H. inversion H. reflexivity.
Qed.

(** No empty string reaches the matching loops. *)
Lemma identifiers_nonempty input : ~ In "" (identifiers input).
Proof.
  unfold identifiers. intros H. apply filter_In in H. destruct H as [_ H].
  discriminate H.
Qed.

Lemma firstMatch_no_identifiers table : firstMatch table [] = None.
Proof.
  induction table as [|[k patterns] rest IH]; simpl; [reflexivity|].
  replace (existsb (fun _ : string => false) patterns) with false; [exact IH|].
  induction patterns; simpl; auto.
Qed.

(** An entry whose patterns all belong to an earlier entry is never the
    first to match. *)
Lemma firstMatch_shadowed k1 p1 k2 p2 rest ids :
  incl p2 p1 -> k1 <> k2 -> ~ In k2 (map fst rest) ->
  firstMatch ((k1, p1) :: (k2, p2) :: rest) ids <> Some k2.
Proof.
  intros Hsub Hk Hrest. cbn [firstMatch].
  destruct (existsb _ p1) eqn:E1; [congruence|].
  destruct (existsb _ p2) eqn:E2.
  - apply existsb_exists in E2. destruct E2 as (p & Hp & Hit).
    assert (X : existsb (fun pattern => existsb (matchesIdentifier pattern) ids) p1 = true).
    { apply existsb_exists. exists p. split; [now apply Hsub|exact Hit]. }
    congruence.
  - intros H. apply firstMatch_in_table in H. contradiction.
Qed.

(** The entry [name] comes first and holds every pattern of [full_name]:
    the classifier never answers [full_name]. *)
Lemma identifyField_never_full_name input info :
  identifyField input = Some info -> fieldType info <> "full_name".
Proof.
  intros H E. apply identifyField_fieldType in H. rewrite E in H. revert H.
  unfold FIELD_MAPPING. apply firstMatch_shadowed.
  - intros p Hp. simpl in *. tauto.
  - discriminate.
  - simpl. intros H. repeat (destruct H as [H|H]; [discriminate H|]). exact H.
Qed.

(** C4, as stated, fails: a text input called [name] is classified as
    [name], which is no semantic field type. *)
Lemma identifyField_name_counterexample :
  identifyField (control "INPUT" "text" "name" "" [])
  = Some (mkFieldInfo "name" "name" "name")
  /\ ~ In "name" vocabulary
  /\ ~ closedVocabularyClaim.
Proof.
  assert (N : ~ In "name" vocabulary).
  { simpl. intros H. repeat (destruct H as [H|H]; [discriminate H|]). exact H. }
  split; [reflexivity|]. split; [exact N|].
  intros C. apply N.
  apply (C (control "INPUT" "text" "name" "" []) (mkFieldInfo "name" "name" "name")).
  reflexivity.
Qed.

(** C4, amended. A result of [identifyField] carries a key of
    [FIELD_MAPPING]: the extra key [name] or one of the semantic field
    types. *)
Theorem identifyField_fieldType_in_table :
  forall input info,
    identifyField input = Some info ->
    In (fieldType info) (map fst FIELD_MAPPING)
    /\ (fieldType info = "name" \/ In (fieldType info) vocabulary).
Proof.
  intros input info H. apply identifyField_fieldType in H.
  apply firstMatch_in_table in H. split; [exact H|].
  simpl in H. simpl.
  repeat (destruct H as [H|H]; [rewrite <- H; tauto|]). destruct H.
Qed.

Lemma identifyField_fieldType_in_table_witness :
  In "aadhaar_number" (map fst FIELD_MAPPING)
  /\ ("aadhaar_number" = "name" \/ In "aadhaar_number" vocabulary).
Proof.
  apply (identifyField_fieldType_in_table
           (control "INPUT" "text" "aadhar_no" "" [])
           (mkFieldInfo "aadhaar_number" "aadhar_no" "aadhar_no")).
  reflexivity.
Defined.

(** C9. The identifier bag holds no empty string, and a control whose name,
    id, placeholder, label text and aria-label are all empty is not
    classified. *)
Theorem identifyField_blank_control :
  (forall input, ~ In "" (identifiers input))
  /\ (forall input,
        el_name input = "" -> el_id input = "" -> el_placeholder input = "" ->
        getFieldLabel input = "" -> el_ariaLabel input = "" ->
        identifyField input = None).
Proof.
  split; [exact identifiers_nonempty|].
  intros input Hn Hi Hp Hl Ha. unfold identifyField.
  destruct (_ || _ || _); [reflexivity|].
  unfold identifiers. rewrite Hn, Hi, Hp, Hl, Ha. cbn [toLowerCase filter truthy].
  change (filter truthy [""; ""; ""; ""; ""]) with (@nil string).
  now rewrite firstMatch_no_identifiers.
Qed.

Lemma identifyField_blank_control_witness :
  identifyField (control "INPUT" "text" "" "" []) = None.
Proof.
  apply (proj2 identifyField_blank_control); reflexivity.
Defined.

(** ** Display mask *)

Lemma length_repeatStr_X (n : nat) : String.length (repeatStr "X" n) = n.
Proof. induction n as [|n IH]; simpl; [reflexivity|now rewrite IH]. Qed.

Lemma length_drop (n : nat) : forall s, String.length (drop n s) = (String.length s - n)%nat.
Proof.
  induction n as [|n IH]; intros s; simpl; [lia|].
  destruct s as [|c s]; simpl; [reflexivity|apply IH].
Qed.

Lemma slice_last4 (value : string) :
  slice value (-4) = drop (String.length value - 4) value.
Proof.
  unfold slice. cbn [Z.ltb Z.compare]. f_equal. lia.
Qed.

Lemma arrayIncludes_In (arr : list string) (x : string) :
  arrayIncludes arr x = true <-> In x arr.
Proof.
  unfold arrayIncludes. rewrite existsb_exists. split.
  - intros (y & Hy & E). apply String.eqb_eq in E. now subst.
  - intros H. exists x. split; [exact H|apply String.eqb_refl].
Qed.

Lemma maskSensitiveValue_short (fieldType value : string) :
  (String.length value <= 4)%nat -> maskSensitiveValue fieldType value = value.
Proof.
  intros H. unfold maskSensitiveValue.
  replace (4 <? String.length value)%nat with false
    by (symmetry; apply Nat.ltb_ge; exact H).
  now rewrite andb_false_r.
Qed.

Lemma maskedAllButLast4_short (value : string) :
  (String.length value <= 4)%nat -> maskedAllButLast4 value = value.
Proof.
  intros H. unfold maskedAllButLast4.
  replace (String.length value - 4)%nat with 0%nat by lia. reflexivity.
Qed.

Lemma get_repeatStr_X (n : nat) : forall i,
  (i < n)%nat -> String.get i (repeatStr "X" n) = Some "X"%char.
Proof.
  induction n as [|n IH]; intros i H; [lia|].
  destruct i as [|i]; [reflexivity|]. cbn. apply IH. lia.
Qed.

Lemma get_drop (k : nat) : forall s i, String.get i (drop k s) = String.get (i + k) s.
Proof.
  induction k as [|k IH]; intros s i; cbn [drop].
  - now rewrite Nat.add_0_r.
  - destruct s as [|c s].
    + now destruct i.
    + rewrite Nat.add_succ_r. cbn [String.get]. apply IH.
Qed.

(** Character by character: [X] before the last four, the value's own
    characters from there on. *)
Lemma maskedAllButLast4_get (value : string) (i : nat) :
  ((i < String.length value - 4)%nat ->
   String.get i (maskedAllButLast4 value) = Some "X"%char)
  /\ ((String.length value - 4 <= i)%nat ->
      String.get i (maskedAllButLast4 value) = String.get i value).
Proof.
  unfold maskedAllButLast4. set (n := (String.length value - 4)%nat). split; intros H.
  - rewrite <- append_correct1 by (rewrite length_repeatStr_X; exact H).
    now apply get_repeatStr_X.
  - replace i with ((i - n) + String.length (repeatStr "X" n))%nat at 1
      by (rewrite length_repeatStr_X; lia).
    rewrite <- append_correct2, get_drop. f_equal. lia.
Qed.

(** C6. For a sensitive field type the mask is the value with all but its
    last four characters replaced by [X]: it is as long as the value, holds
    [X] at every position before the last four and the value's character at
    each of the last four; in particular the PAN [ABCDE1234F] shows as
    [XXXXXX234F]. *)
Theorem maskSensitiveValue_masks :
  forall fieldType value,
    In fieldType sensitiveFields ->
    maskSensitiveValue fieldType value = maskedAllButLast4 value
    /\ String.length (maskSensitiveValue fieldType value) = String.length value
    /\ (forall i, (i < String.length value - 4)%nat ->
                  String.get i (maskSensitiveValue fieldType value) = Some "X"%char)
    /\ (forall i, (String.length value - 4 <= i)%nat ->
                  String.get i (maskSensitiveValue fieldType value) = String.get i value).
Proof.
  intros ft v H.
  assert (E : maskSensitiveValue ft v = maskedAllButLast4 v).
  { destruct (Nat.le_gt_cases (String.length v) 4) as [L|L].
    - now rewrite maskSensitiveValue_short, maskedAllButLast4_short.
    - unfold maskSensitiveValue, maskedAllButLast4.
      rewrite (proj2 (arrayIncludes_In _ _) H).
      replace (4 <? String.length v)%nat with true
        by (symmetry; apply Nat.ltb_lt; exact L).
      cbn [andb]. now rewrite slice_last4. }
  rewrite E. split; [reflexivity|]. split.
  - unfold maskedAllButLast4.
    rewrite length_append, length_repeatStr_X, length_drop. lia.
  - split; intros i Hi; now apply maskedAllButLast4_get.
Qed.

Lemma maskSensitiveValue_masks_witness :
  maskSensitiveValue "pan_number" "ABCDE1234F" = "XXXXXX234F"
  /\ String.length (maskSensitiveValue "pan_number" "ABCDE1234F") = 10%nat.
Proof.
  assert (S : In "pan_number" sensitiveFields) by (simpl; tauto).
  destruct (maskSensitiveValue_masks "pan_number" "ABCDE1234F" S) as (A & B & _).
  split; [exact A|exact B].
Defined.

(** C10. A value of at most four characters is shown as it is even for a
    sensitive field type, and so is every value of a field type outside the
    sensitive subset. *)
Theorem maskSensitiveValue_unchanged :
  (forall fieldType value,
      (String.length value <= 4)%nat -> maskSensitiveValue fieldType value = value)
  /\ (forall fieldType value,
        ~ In fieldType sensitiveFields -> maskSensitiveValue fieldType value = value).
Proof.
  split; [exact maskSensitiveValue_short|].
  intros ft v H. unfold maskSensitiveValue.
  destruct (arrayIncludes sensitiveFields ft) eqn:E; [|reflexivity].
  apply arrayIncludes_In in E. contradiction.
Qed.

Lemma maskSensitiveValue_unchanged_witness :
  maskSensitiveValue "aadhaar_number" "1234" = "1234"
  /\ maskSensitiveValue "email" "asha@example.org" = "asha@example.org".
Proof.
  split.
  - apply (proj1 maskSensitiveValue_unchanged). simpl. lia.
  - apply (proj2 maskSensitiveValue_unchanged). simpl.
    intros H. repeat (destruct H as [H|H]; [discriminate H|]). exact H.
Defined.

(** ** Value writer: the events dispatched *)

Lemma dispatched_setValue el v : dispatched (setValue el v) = dispatched el.
Proof. reflexivity. Qed.

Lemma dispatched_setChecked el b : dispatched (setChecked el b) = dispatched el.
Proof. reflexivity. Qed.

Lemma dispatched_selectOption el options p :
  dispatched (selectOption el options p) = dispatched el.
Proof. unfold selectOption. destruct (find p options); reflexivity. Qed.

Lemma dispatched_dispatchEvent el ev :
  dispatched (dispatchEvent el ev) = (dispatched el ++ [ev])%list.
Proof. reflexivity. Qed.

Lemma eventsOf_app (before after : Element) (evs : list string) :
  dispatched after = (dispatched before ++ evs)%list -> eventsOf before after = evs.
Proof.
  intros H. unfold eventsOf. rewrite H.
  rewrite skipn_app, skipn_all, Nat.sub_diag. reflexivity.
Qed.

Lemma fillByKind_flow element value fieldType :
  match fillByKind element value fieldType with
  | Returned el =>
      returnsEarly element value fieldType = true
      /\ dispatched el = (dispatched element ++ ["change"])%list
  | FellThrough el =>
      returnsEarly element value fieldType = false
      /\ dispatched el = dispatched element
  end.
Proof.
  unfold fillByKind, returnsEarly.
  destruct (el_tagName element =? "SELECT")%string; cbn [andb].
  - unfold fillSelect.
    destruct (isDateOfBirth fieldType || isDateRelatedSelect element); cbn [andb].
    + destruct (parseDate value) as [dateVal|].
      * split; [reflexivity|]. rewrite dispatched_dispatchEvent. f_equal.
        destruct (detectSelectPurpose element (el_options element)) as [purpose|];
          [|apply dispatched_selectOption].
        repeat match goal with
               | |- dispatched (match ?x with _ => _ end) = _ => destruct x
               end; apply dispatched_selectOption.
      * split; [reflexivity|apply dispatched_selectOption].
    + split; [reflexivity|apply dispatched_selectOption].
  - repeat match goal with
           | |- match (if ?c then _ else _) with _ => _ end => destruct c
           | |- match (match ?x with Some _ => _ | None => _ end) with _ => _ end =>
               destruct x
           end; split; reflexivity.
Qed.

(** Every path of [fillField] dispatches [input] and then [change], but the
    early return, which dispatches [change] alone. *)
Lemma fillField_events element value fieldType :
  eventsOf element (fillField element value fieldType)
  = if returnsEarly element value fieldType then ["change"] else ["input"; "change"].
Proof.
  unfold fillField. pose proof (fillByKind_flow element value fieldType) as H.
  destruct (fillByKind element value fieldType) as [el|el]; destruct H as [-> H].
  - now apply eventsOf_app.
  - apply eventsOf_app. rewrite !dispatched_dispatchEvent, H.
    now rewrite <- app_assoc.
Qed.

(** C5. The date branch of a select returns before the [input] event is
    dispatched: filling the day select of a date of birth with
    ["15/08/1995"] selects 15 and dispatches [change] alone. *)
Theorem fillField_date_select_skips_input :
  el_value (fillField dobDaySelect "15/08/1995" (Some "date_of_birth")) = "15"
  /\ eventsOf dobDaySelect (fillField dobDaySelect "15/08/1995" (Some "date_of_birth"))
     = ["change"]
  /\ ~ In "input" (dispatched (fillField dobDaySelect "15/08/1995" (Some "date_of_birth"))).
Proof.
  split; [reflexivity|]. split; [reflexivity|].
  vm_compute. intros [H|[]]. discriminate H.
Qed.

(** ** Select purpose resolver *)

Lemma isNumeric_parseInt (v : string) :
  isNumeric v = true -> parseInt v = Int (decimalValue v).
Proof.
  unfold isNumeric, truthy. intros H. apply andb_prop in H. destruct H as [D N].
  apply parseInt_digits; [exact D|].
  apply negb_true_iff, String.eqb_neq in N. exact N.
Qed.

(** The numeric option values are integers, never [NaN]. *)
Lemma numericValues_integers (options : list OptionEl) :
  numericValues options = map Int (numericOptionValues options).
Proof.
  unfold numericValues, numericOptionValues.
  induction (map optionKey options) as [|v vs IH]; [reflexivity|].
  cbn [filter]. destruct (isNumeric v) eqn:E; [|exact IH].
  cbn [map]. now rewrite IH, (isNumeric_parseInt v E).
Qed.

Lemma Math_max_integers (xs : list Z) : forall x,
  Math_max (Int x) (map Int xs) = Int (fold_left Z.max xs x).
Proof.
  unfold Math_max. induction xs as [|a xs IH]; intros x; [reflexivity|].
  cbn [map fold_left Math_max2]. apply IH.
Qed.

Lemma fold_max_isMaxOf (xs : list Z) : forall x,
  isMaxOf (fold_left Z.max xs x) (x :: xs).
Proof.
  induction xs as [|a xs IH]; intros x.
  - split; [now left|]. intros z [<-|[]]. cbn. lia.
  - cbn [fold_left]. destruct (IH (Z.max x a)) as [Hin Hub]. split.
    + destruct Hin as [E|Hin].
      * rewrite <- E. destruct (Z.max_spec x a) as [[_ ->]|[_ ->]].
        -- right. now left.
        -- now left.
      * right. now right.
    + intros z [E|[E|Hz]].
      * specialize (Hub (Z.max x a) (or_introl eq_refl)). lia.
      * specialize (Hub (Z.max x a) (or_introl eq_refl)). lia.
      * apply Hub. now right.
Qed.

Lemma isMaxOf_unique (l : list Z) (a b : Z) : isMaxOf a l -> isMaxOf b l -> a = b.
Proof.
  intros [Ia Ua] [Ib Ub]. specialize (Ua b Ib). specialize (Ub a Ia). lia.
Qed.

Lemma detectSelectPurpose_hints element options :
  detectSelectPurpose element options
  = if hintDay element then Some "day"
    else if hintMonth element then Some "month"
    else if hintYear element then Some "year"
    else if existsb startsWithMonth (map optionKey options) then Some "month"
    else
      match numericOptionValues options with
      | [] => None
      | x :: xs =>
          let mx := fold_left Z.max xs x in
          if (mx <=? 31) && (28 <=? mx) then Some "day"
          else if (mx =? 12) || (mx <=? 12) && (List.length (x :: xs) <=? 13)%nat
               then Some "month"
          else if 1900 <? mx then Some "year"
          else None
      end.
Proof.
  unfold detectSelectPurpose, hintDay, hintMonth, hintYear.
  rewrite numericValues_integers.
  destruct (numericOptionValues options) as [|x xs]; [reflexivity|].
  cbn [map List.length]. rewrite Math_max_integers, length_map. reflexivity.
Qed.

(** C8, as stated, fails: [dd] in the id alone is no hint; a maximum of 12
    names a month whatever the number of options; month names are looked
    for in the option values before the option texts. *)
Lemma detectSelectPurpose_counterexample :
  let byId := control "SELECT" "select-one" "" "dd" [] in
  let fourteen := map (fun n => mkOption (toString (Int n)) "") (12 :: range 0 13) in
  let plain := control "SELECT" "select-one" "" "" [] in
  detectSelectPurpose byId [] = None
  /\ spec_resolvePurpose byId [] = Some "day"
  /\ detectSelectPurpose plain fourteen = Some "month"
  /\ spec_resolvePurpose plain fourteen = None
  /\ detectSelectPurpose plain [mkOption "2000" "Jan"] = Some "year"
  /\ spec_resolvePurpose plain [mkOption "2000" "Jan"] = Some "month"
  /\ ~ resolverClaim.
Proof.
  cbv zeta. repeat (split; [reflexivity|]).
  intros C. specialize (C (control "SELECT" "select-one" "" "dd" []) []).
  discriminate C.
Qed.

(** C8, amended. [detectSelectPurpose] first takes the hints: [day] in the
    name or the id, or [dd] in the name, give [day]; [month] in the name or
    the id, or [mm] in the name, give [month]; [year] in the name or the id,
    or [yyyy] or [yy] in the name, give [year].  With no hint, an option
    whose value (or text, when the value is empty) starts with a month
    abbreviation, whatever the case, gives [month].  Otherwise the greatest
    purely numeric option value decides: 28 to 31 give [day]; 12, or less
    than 12 with at most 13 numeric options, give [month]; more than 1900
    gives [year]; anything else, and no numeric option at all, give no
    result. *)
Theorem detectSelectPurpose_resolves :
  forall element options,
    (hintDay element = true -> detectSelectPurpose element options = Some "day")
    /\ (hintDay element = false -> hintMonth element = true ->
        detectSelectPurpose element options = Some "month")
    /\ (hintDay element = false -> hintMonth element = false ->
        hintYear element = true ->
        detectSelectPurpose element options = Some "year")
    /\ (hintDay element = false -> hintMonth element = false ->
        hintYear element = false ->
        ((exists o, In o options /\ startsWithMonth (optionKey o) = true) ->
         detectSelectPurpose element options = Some "month")
        /\ ((forall o, In o options -> startsWithMonth (optionKey o) = false) ->
            (numericOptionValues options = [] ->
             detectSelectPurpose element options = None)
            /\ (forall mx,
                  isMaxOf mx (numericOptionValues options) ->
                  let count := List.length (numericOptionValues options) in
                  (28 <= mx <= 31 -> detectSelectPurpose element options = Some "day")
                  /\ (mx = 12 -> detectSelectPurpose element options = Some "month")
                  /\ (mx < 12 -> (count <= 13)%nat ->
                      detectSelectPurpose element options = Some "month")
                  /\ (1900 < mx -> detectSelectPurpose element options = Some "year")
                  /\ ((mx < 12 /\ (13 < count)%nat) \/ 12 < mx < 28 \/ 31 < mx <= 1900 ->
                      detectSelectPurpose element options = None)))).
Proof.
  intros element options. rewrite detectSelectPurpose_hints.
  split; [intros ->; reflexivity|].
  split; [intros -> ->; reflexivity|].
  split; [intros -> -> ->; reflexivity|].
  intros -> -> ->. split.
  - intros (o & Ho & Hm).
    replace (existsb startsWithMonth (map optionKey options)) with true; [reflexivity|].
    symmetry. apply existsb_exists. exists (optionKey o). split; [|exact Hm].
    apply in_map, Ho.
  - intros Hnone.
    replace (existsb startsWithMonth (map optionKey options)) with false.
    2:{ symmetry. apply not_true_is_false. intros E.
        apply existsb_exists in E. destruct E as (v & Hv & Hm).
        apply in_map_iff in Hv. destruct Hv as (o & <- & Ho).
        rewrite (Hnone o Ho) in Hm. discriminate Hm. }
    split; [intros ->; reflexivity|].
    intros mx Hmax count. subst count.
    destruct (numericOptionValues options) as [|x xs] eqn:E.
    { destruct Hmax as [[] _]. }
    cbv zeta.
    rewrite <- (isMaxOf_unique _ _ _ Hmax (fold_max_isMaxOf xs x)).
    repeat split.
    + intros H.
      replace (mx <=? 31) with true by (symmetry; apply Z.leb_le; lia).
      replace (28 <=? mx) with true by (symmetry; apply Z.leb_le; lia).
      reflexivity.
    + intros ->. reflexivity.
    + intros H L.
      replace (mx <=? 31) with true by (symmetry; apply Z.leb_le; lia).
      replace (28 <=? mx) with false by (symmetry; apply Z.leb_gt; lia).
      replace (mx <=? 12) with true by (symmetry; apply Z.leb_le; lia).
      apply Nat.leb_le in L. rewrite L. cbn [andb]. now rewrite orb_true_r.
    + intros H.
      replace (mx <=? 31) with false by (symmetry; apply Z.leb_gt; lia).
      replace (mx =? 12) with false by (symmetry; apply Z.eqb_neq; lia).
      replace (mx <=? 12) with false by (symmetry; apply Z.leb_gt; lia).
      replace (1900 <? mx) with true by (symmetry; apply Z.ltb_lt; lia).
      reflexivity.
    + intros [[H L]|[H|H]].
      * replace (28 <=? mx) with false by (symmetry; apply Z.leb_gt; lia).
        replace (mx =? 12) with false by (symmetry; apply Z.eqb_neq; lia).
        replace (1900 <? mx) with false by (symmetry; apply Z.ltb_ge; lia).
        apply Nat.leb_gt in L. rewrite L.
        now rewrite !andb_false_r.
      * replace (28 <=? mx) with false by (symmetry; apply Z.leb_gt; lia).
        replace (mx =? 12) with false by (symmetry; apply Z.eqb_neq; lia).
        replace (mx <=? 12) with false by (symmetry; apply Z.leb_gt; lia).
        replace (1900 <? mx) with false by (symmetry; apply Z.ltb_ge; lia).
        now rewrite !andb_false_r.
      * replace (mx <=? 31) with false by (symmetry; apply Z.leb_gt; lia).
        replace (mx =? 12) with false by (symmetry; apply Z.eqb_neq; lia).
        replace (mx <=? 12) with false by (symmetry; apply Z.leb_gt; lia).
        replace (1900 <? mx) with false by (symmetry; apply Z.ltb_ge; lia).
        reflexivity.
Qed.

Lemma detectSelectPurpose_resolves_witness :
  detectSelectPurpose (control "SELECT" "select-one" "dob_day" "" []) [] = Some "day"
  /\ detectSelectPurpose (control "SELECT" "select-one" "" "" []) dayOptions = Some "day".
Proof.
  split.
  - apply (proj1 (detectSelectPurpose_resolves _ _)). reflexivity.
  - destruct (detectSelectPurpose_resolves (control "SELECT" "select-one" "" "" [])
                                           dayOptions) as (_ & _ & _ & H).
    destruct (H eq_refl eq_refl eq_refl) as [_ H2].
    assert (N : forall o, In o dayOptions -> startsWithMonth (optionKey o) = false).
    { assert (A : forallb (fun o => negb (startsWithMonth (optionKey o))) dayOptions = true)
        by reflexivity.
      intros o Ho. apply negb_true_iff.
      exact (proj1 (forallb_forall _ _) A o Ho). }
    destruct (H2 N) as [_ H3].
    assert (M : isMaxOf 31 (numericOptionValues dayOptions)).
    { split.
      - vm_compute. repeat (first [left; reflexivity | right]).
      - intros x Hx. vm_compute in Hx.
        repeat (destruct Hx as [Hx|Hx]; [lia|]). destruct Hx. }
    apply (H3 31 M). lia.
Defined.

(** * Further properties of the code *)

(** ** [parseDate]: what it accepts and what it returns *)

(** A result of [parseDate] comes from one of the three shapes, with the
    fields that shape gives. *)
Lemma parseDate_cases (s : string) (dt : CanonicalDate) :
  parseDate s = Some dt ->
  (shapeYearOnly s /\ dt = mkDate (Int 1) (Int 1) (Int (decimalValue s)) true)
  \/ (exists g1 c1 g2 c2 g3,
        s = g1 ++ String c1 (g2 ++ String c2 g3) /\
        digitString 1 2 g1 /\ isSep c1 = true /\
        digitString 1 2 g2 /\ isSep c2 = true /\ digitString 4 4 g3 /\
        dt = dayFirstRule (decimalValue g1) (decimalValue g2) (decimalValue g3))
  \/ (exists g1 c1 g2 c2 g3,
        s = g1 ++ String c1 (g2 ++ String c2 g3) /\
        digitString 4 4 g1 /\ isSep c1 = true /\
        digitString 1 2 g2 /\ isSep c2 = true /\ digitString 1 2 g3 /\
        dt = mkDate (Int (decimalValue g3)) (Int (decimalValue g2))
                    (Int (decimalValue g1)) false).
Proof.
  intros H.
  destruct (matchYearOnly s) as [g|] eqn:EY.
  { assert (Y : shapeYearOnly s).
    { apply matchYearOnly_iff. unfold matchYearOnly in *.
      destruct (digitsToEnd 4 4 s); congruence. }
    left. split; [exact Y|]. rewrite (parseDate_yearOnly s Y) in H. congruence. }
  destruct (matchDMY s) as [[[g1 g2] g3]|] eqn:ED.
  { apply matchDMY_sound in ED.
    destruct ED as (c1 & c2 & -> & H1 & S1 & H2 & S2 & H3).
    right. left. exists g1, c1, g2, c2, g3.
    rewrite (parseDate_DMY _ _ _ _ _ H1 S1 H2 S2 H3) in H.
    repeat split; try assumption; solve [apply H1 | apply H2 | apply H3 | congruence]. }
  destruct (matchISO s) as [[[g1 g2] g3]|] eqn:EI.
  { apply matchISO_sound in EI.
    destruct EI as (c1 & c2 & -> & H1 & S1 & H2 & S2 & H3).
    right. right. exists g1, c1, g2, c2, g3.
    rewrite (parseDate_ISO _ _ _ _ _ H1 S1 H2 S2 H3) in H.
    repeat split; try assumption; solve [apply H1 | apply H2 | apply H3 | congruence]. }
  exfalso. unfold parseDate in H. rewrite EY, ED, EI in H.
  destruct (negb (truthy s)); discriminate H.
Qed.

(** X1. [parseDate] returns a date exactly on the strings of its three
    shapes: a bare four-digit year, [D[/-.]M[/-.]YYYY] and
    [YYYY[/-.]M[/-.]D]. *)
Theorem parseDate_accepts_exactly_the_shapes :
  forall s, parseDate s <> None <-> shapeYearOnly s \/ shapeDMY s \/ shapeISO s.
Proof.
  intros s. split.
  - destruct (parseDate s) as [dt|] eqn:E; [intros _|congruence].
    destruct (parseDate_cases s dt E) as [[Y _]|[D|I]].
    + now left.
    + right. left. destruct D as (g1 & c1 & g2 & c2 & g3 & D).
      exists g1, c1, g2, c2, g3. tauto.
    + right. right. destruct I as (g1 & c1 & g2 & c2 & g3 & I).
      exists g1, c1, g2, c2, g3. tauto.
  - intros [Y|[D|I]].
    + rewrite (parseDate_yearOnly s Y). discriminate.
    + destruct D as (g1 & c1 & g2 & c2 & g3 & -> & H1 & S1 & H2 & S2 & H3).
      rewrite (parseDate_DMY _ _ _ _ _ H1 S1 H2 S2 H3). discriminate.
    + destruct I as (g1 & c1 & g2 & c2 & g3 & -> & H1 & S1 & H2 & S2 & H3).
      rewrite (parseDate_ISO _ _ _ _ _ H1 S1 H2 S2 H3). discriminate.
Qed.

(** X2. On the ISO shape [YYYY[/-.]M[/-.]D] the first group is the year, the
    second the month and the third the day, whatever the two separators;
    nothing is swapped or clamped. *)
Theorem parseDate_iso_fields :
  forall g1 c1 g2 c2 g3,
    digitString 4 4 g1 -> isSep c1 = true ->
    digitString 1 2 g2 -> isSep c2 = true -> digitString 1 2 g3 ->
    parseDate (g1 ++ String c1 (g2 ++ String c2 g3))
    = Some (mkDate (Int (decimalValue g3)) (Int (decimalValue g2))
                   (Int (decimalValue g1)) false).
Proof. exact parseDate_ISO. Qed.

Lemma parseDate_iso_fields_witness :
  parseDate "1995/8-15" = Some (mkDate (Int 15) (Int 8) (Int 1995) false).
Proof.
  apply (parseDate_iso_fields "1995" "/" "8" "-" "15");
    solve [digit_string | reflexivity].
Defined.

Lemma decimalAcc_bounds (s : string) :
  allDigits s = true ->
  forall a, 0 <= a ->
    a * 10 ^ Z.of_nat (String.length s) <= decimalAcc s a
    < (a + 1) * 10 ^ Z.of_nat (String.length s).
Proof.
  induction s as [|c s IH]; intros D a Ha.
  - cbn. lia.
  - cbn [allDigits] in D. apply andb_prop in D. destruct D as [Dc Ds].
    destruct (digit_value c Dc) as [_ V].
    cbn [decimalAcc String.length]. rewrite Nat2Z.inj_succ, Z.pow_succ_r by lia.
    specialize (IH Ds (10 * a + (code c - 48)) ltac:(lia)).
    pose proof (Z.pow_pos_nonneg 10 (Z.of_nat (String.length s)) ltac:(lia) ltac:(lia)).
    nia.
Qed.

Lemma digitString_value_bound (lo hi : nat) (s : string) :
  digitString lo hi s -> 0 <= decimalValue s < 10 ^ Z.of_nat hi.
Proof.
  intros [D [_ L]]. unfold decimalValue.
  pose proof (decimalAcc_bounds s D 0 ltac:(lia)) as B.
  assert (M : 10 ^ Z.of_nat (String.length s) <= 10 ^ Z.of_nat hi)
    by (apply Z.pow_le_mono_r; lia).
  lia.
Qed.

(** X3. The fields of every date [parseDate] returns are integers, never
    [NaN]: a day and a month between 0 and 99 and a year between 0 and 9999;
    the month exceeds 12 only for a text of the ISO shape. *)
Theorem parseDate_field_bounds :
  forall s dt,
    parseDate s = Some dt ->
    exists d m y,
      day dt = Int d /\ month dt = Int m /\ year dt = Int y /\
      0 <= d <= 99 /\ 0 <= m <= 99 /\ 0 <= y <= 9999 /\
      (m <= 12 \/ shapeISO s).
Proof.
  intros s dt H. destruct (parseDate_cases s dt H) as [[Y ->]|[D|I]].
  - exists 1, 1, (decimalValue s). cbn.
    pose proof (digitString_value_bound _ _ _ Y) as B.
    change (10 ^ Z.of_nat 4) with 10000 in B.
    repeat split; lia.
  - destruct D as (g1 & c1 & g2 & c2 & g3 & _ & H1 & _ & H2 & _ & H3 & ->).
    pose proof (digitString_value_bound _ _ _ H1) as B1.
    pose proof (digitString_value_bound _ _ _ H2) as B2.
    pose proof (digitString_value_bound _ _ _ H3) as B3.
    change (10 ^ Z.of_nat 2) with 100 in B1, B2.
    change (10 ^ Z.of_nat 4) with 10000 in B3.
    unfold dayFirstRule.
    destruct (decimalValue g2 <=? 12) eqn:L2;
      [|destruct (decimalValue g1 <=? 12) eqn:L1];
      try apply Z.leb_le in L2; try apply Z.leb_le in L1;
      eexists; eexists; eexists; cbn;
      (split; [reflexivity|]); (split; [reflexivity|]); (split; [reflexivity|]);
      repeat split; lia.
  - destruct I as (g1 & c1 & g2 & c2 & g3 & E & H1 & S1 & H2 & S2 & H3 & ->).
    pose proof (digitString_value_bound _ _ _ H1) as B1.
    pose proof (digitString_value_bound _ _ _ H2) as B2.
    pose proof (digitString_value_bound _ _ _ H3) as B3.
    change (10 ^ Z.of_nat 2) with 100 in B2, B3.
    change (10 ^ Z.of_nat 4) with 10000 in B1.
    exists (decimalValue g3), (decimalValue g2), (decimalValue g1). cbn.
    repeat split; try lia. right. exists g1, c1, g2, c2, g3. tauto.
Qed.

Lemma parseDate_field_bounds_witness :
  exists d m y,
    Int 45 = Int d /\ Int 13 = Int m /\ Int 1990 = Int y /\
    0 <= d <= 99 /\ 0 <= m <= 99 /\ 0 <= y <= 9999 /\
    (m <= 12 \/ shapeISO "1990-13-45").
Proof.
  exact (parseDate_field_bounds "1990-13-45"
           (mkDate (Int 45) (Int 13) (Int 1990) false) eq_refl).
Defined.

(** X4. The [yearOnly] flag is set exactly when the text was a bare
    four-digit year. *)
Theorem parseDate_yearOnly_flag :
  forall s dt, parseDate s = Some dt -> (yearOnly dt = true <-> shapeYearOnly s).
Proof.
  intros s dt H. destruct (parseDate_cases s dt H) as [[Y ->]|[D|I]].
  - cbn. tauto.
  - destruct D as (g1 & c1 & g2 & c2 & g3 & -> & _ & S1 & _ & _ & _ & ->).
    assert (F : yearOnly (dayFirstRule (decimalValue g1) (decimalValue g2)
                                       (decimalValue g3)) = false).
    { unfold dayFirstRule.
      destruct (decimalValue g2 <=? 12); [|destruct (decimalValue g1 <=? 12)];
        reflexivity. }
    rewrite F. split; [discriminate|].
    intros [A _]. rewrite (allDigits_with_sep g1 _ c1 S1) in A. discriminate A.
  - destruct I as (g1 & c1 & g2 & c2 & g3 & -> & _ & S1 & _ & _ & _ & ->).
    cbn. split; [discriminate|].
    intros [A _]. rewrite (allDigits_with_sep g1 _ c1 S1) in A. discriminate A.
Qed.

Lemma parseDate_yearOnly_flag_witness :
  (true = true <-> shapeYearOnly "1990") /\ (false = true <-> shapeYearOnly "1/1/1990").
Proof.
  split.
  - exact (parseDate_yearOnly_flag "1990" (mkDate (Int 1) (Int 1) (Int 1990) true) eq_refl).
  - exact (parseDate_yearOnly_flag "1/1/1990"
             (mkDate (Int 1) (Int 1) (Int 1990) false) eq_refl).
Defined.

Lemma dateChars_app (a b : string) : dateChars (a ++ b) = dateChars a && dateChars b.
Proof.
  induction a as [|x a IH]; cbn; [reflexivity|]. now rewrite IH, andb_assoc.
Qed.

Lemma allDigits_dateChars (s : string) : allDigits s = true -> dateChars s = true.
Proof.
  induction s as [|c s IH]; cbn; [reflexivity|]. intros H.
  apply andb_prop in H. destruct H as [-> Hs]. now rewrite (IH Hs).
Qed.

Lemma groups_dateChars g1 c1 g2 c2 g3 :
  allDigits g1 = true -> isSep c1 = true -> allDigits g2 = true ->
  isSep c2 = true -> allDigits g3 = true ->
  dateChars (g1 ++ String c1 (g2 ++ String c2 g3)) = true.
Proof.
  intros D1 S1 D2 S2 D3.
  rewrite dateChars_app. cbn [dateChars]. rewrite dateChars_app. cbn [dateChars].
  rewrite (allDigits_dateChars _ D1), (allDigits_dateChars _ D2),
    (allDigits_dateChars _ D3), S1, S2.
  now rewrite !orb_true_r.
Qed.

(** X5. A text that holds any character other than a digit and the three
    separators is not parsed: the value is not trimmed, and a month name, a
    space or a time of day makes [parseDate] return no result. *)
Theorem parseDate_rejects_other_characters :
  forall a c b,
    isDigit c = false -> isSep c = false -> parseDate (a ++ String c b) = None.
Proof.
  intros a c b Hd Hs.
  destruct (parseDate (a ++ String c b)) as [dt|] eqn:E; [exfalso|reflexivity].
  assert (F : dateChars (a ++ String c b) = false).
  { rewrite dateChars_app. cbn [dateChars]. rewrite Hd, Hs. cbn.
    apply andb_false_r. }
  assert (T : dateChars (a ++ String c b) = true).
  { destruct (parseDate_cases _ dt E) as [[[A _] _]|[D|I]].
    - now apply allDigits_dateChars.
    - destruct D as (g1 & c1 & g2 & c2 & g3 & -> & H1 & S1 & H2 & S2 & H3 & _).
      apply groups_dateChars; solve [assumption | apply H1 | apply H2 | apply H3].
    - destruct I as (g1 & c1 & g2 & c2 & g3 & -> & H1 & S1 & H2 & S2 & H3 & _).
      apply groups_dateChars; solve [assumption | apply H1 | apply H2 | apply H3]. }
  congruence.
Qed.

Lemma parseDate_rejects_other_characters_witness :
  parseDate " 15/08/1995" = None /\ parseDate "15/08/1995 10:30" = None.
Proof.
  split.
  - apply (parseDate_rejects_other_characters "" " " "15/08/1995"); reflexivity.
  - apply (parseDate_rejects_other_characters "15/08/1995" " " "10:30"); reflexivity.
Defined.

(** ** [formatDateToExpected] and [detectDateFormat] *)

(** X6. [detectDateFormat] always names one of the five supported formats,
    so [fillField] never reaches the fallback of [formatDateToExpected];
    and on any other format name that fallback prints [DD/MM/YYYY]. *)
Theorem format_names_and_fallback :
  (forall element, In (detectDateFormat element) supportedFormats)
  /\ (forall dateObj format,
        ~ In format supportedFormats ->
        formatDateToExpected dateObj format = formatDateToExpected dateObj "DD/MM/YYYY").
Proof.
  split.
  - intros element. unfold detectDateFormat.
    repeat match goal with
           | |- In (if ?c then _ else _) _ => destruct c
           end; simpl; tauto.
  - intros dt F H. unfold formatDateToExpected.
    repeat match goal with
           | |- context [(F =? ?k)%string] =>
               destruct (String.eqb_spec F k) as [E|_];
               [exfalso; apply H; rewrite E; simpl; tauto|]
           end.
    reflexivity.
Qed.

Lemma format_names_and_fallback_witness :
  formatDateToExpected (mkDate (Int 5) (Int 3) (Int 1990) false) "dd.mm.yyyy"
  = "05/03/1990".
Proof.
  rewrite (proj2 format_names_and_fallback); [reflexivity|].
  simpl. intros H. repeat (destruct H as [H|H]; [discriminate H|]). exact H.
Defined.

(** ** [identifyField]: when it answers and what *)



(** X8. The field types [identifyField] answers are exactly twelve: the
    keys of [FIELD_MAPPING] but [full_name], whose patterns all belong to
    the earlier entry [name]. *)
Theorem identifyField_range :
  forall ft,
    (exists input info, identifyField input = Some info /\ fieldType info = ft)
    <-> In ft reachableTypes.
Proof.
  intros ft. split.
  - intros (input & info & H & <-).
    pose proof (identifyField_never_full_name input info H) as N.
    apply identifyField_fieldType, firstMatch_in_table in H.
    simpl in H. unfold reachableTypes. simpl.
    repeat (destruct H as [H|H]; [rewrite <- H in *; try tauto; congruence|]).
    destruct H.
  - unfold reachableTypes. simpl. intros H.
    repeat (destruct H as [H|H];
            [subst ft;
             first
               [ exists (textInput "name"); eexists; split; reflexivity
               | exists (textInput "father"); eexists; split; reflexivity
               | exists (textInput "aadhaar"); eexists; split; reflexivity
               | exists (textInput "pancard"); eexists; split; reflexivity
               | exists (textInput "voterid"); eexists; split; reflexivity
               | exists (textInput "dob"); eexists; split; reflexivity
               | exists (textInput "gender"); eexists; split; reflexivity
               | exists (textInput "address"); eexists; split; reflexivity
               | exists (textInput "mobile"); eexists; split; reflexivity
               | exists (textInput "email"); eexists; split; reflexivity
               | exists (textInput "caste"); eexists; split; reflexivity
               | exists (textInput "income"); eexists; split; reflexivity ]|]).
    destruct H.
Qed.



(** ** [detectSelectPurpose]: the options as a bag *)

Lemma existsb_Permutation {A : Type} (f : A -> bool) (l l' : list A) :
  Permutation l l' -> existsb f l = existsb f l'.
Proof.
  induction 1 as [|x l l' _ IH|x y l|l l' l'' _ IH1 _ IH2]; cbn.
  - reflexivity.
  - now rewrite IH.
  - destruct (f x), (f y); reflexivity.
  - now rewrite IH1.
Qed.

Lemma filter_Permutation {A : Type} (f : A -> bool) (l l' : list A) :
  Permutation l l' -> Permutation (filter f l) (filter f l').
Proof.
  induction 1 as [|x l l' _ IH|x y l|l l' l'' _ IH1 _ IH2]; cbn.
  - constructor.
  - destruct (f x); [now constructor|exact IH].
  - destruct (f x), (f y); try reflexivity. apply perm_swap.
  - now transitivity (filter f l').
Qed.

Lemma numericOptionValues_Permutation (options options' : list OptionEl) :
  Permutation options options' ->
  Permutation (numericOptionValues options) (numericOptionValues options').
Proof.
  intros H. unfold numericOptionValues.
  apply Permutation_map, filter_Permutation, Permutation_map, H.
Qed.

Lemma isMaxOf_Permutation (m : Z) (l l' : list Z) :
  Permutation l l' -> isMaxOf m l -> isMaxOf m l'.
Proof.
  intros P [I U]. split.
  - now apply (Permutation_in _ P).
  - intros x Hx. apply U. apply (Permutation_in _ (Permutation_sym P)), Hx.
Qed.

(** What the numeric option values decide, as in [detectSelectPurpose_hints]. *)
Lemma numeric_decision_Permutation (l l' : list Z) :
  Permutation l l' ->
  match l with
  | [] => None
  | x :: xs =>
      let mx := fold_left Z.max xs x in
      if (mx <=? 31) && (28 <=? mx) then Some "day"
      else if (mx =? 12) || (mx <=? 12) && (List.length (x :: xs) <=? 13)%nat
           then Some "month"
      else if 1900 <? mx then Some "year"
      else None
  end
  = match l' with
    | [] => None
    | x :: xs =>
        let mx := fold_left Z.max xs x in
        if (mx <=? 31) && (28 <=? mx) then Some "day"
        else if (mx =? 12) || (mx <=? 12) && (List.length (x :: xs) <=? 13)%nat
             then Some "month"
        else if 1900 <? mx then Some "year"
        else None
    end.
Proof.
  intros P. destruct l as [|x xs], l' as [|y ys]; try reflexivity.
  - apply Permutation_nil in P. discriminate P.
  - apply Permutation_sym, Permutation_nil in P. discriminate P.
  - cbv zeta.
    rewrite (isMaxOf_unique _ _ _
               (isMaxOf_Permutation _ _ _ P (fold_max_isMaxOf xs x))
               (fold_max_isMaxOf ys y)).
    now rewrite (Permutation_length P).
Qed.

(** X10. [detectSelectPurpose] does not depend on the order of the
    options: it looks at whether some option starts with a month name, at
    the greatest numeric option and at the number of numeric options. *)
Theorem detectSelectPurpose_option_order :
  forall element options options',
    Permutation options options' ->
    detectSelectPurpose element options = detectSelectPurpose element options'.
Proof.
  intros element options options' P. rewrite !detectSelectPurpose_hints.
  rewrite (existsb_Permutation startsWithMonth _ _ (Permutation_map optionKey P)).
  rewrite (numeric_decision_Permutation _ _ (numericOptionValues_Permutation _ _ P)).
  reflexivity.
Qed.

Lemma detectSelectPurpose_option_order_witness :
  detectSelectPurpose (control "SELECT" "select-one" "" "" [])
                      [mkOption "2001" ""; mkOption "1999" ""; mkOption "2000" ""]
  = detectSelectPurpose (control "SELECT" "select-one" "" "" [])
                        [mkOption "1999" ""; mkOption "2000" ""; mkOption "2001" ""].
Proof.
  apply detectSelectPurpose_option_order.
  exact (Permutation_cons_append [mkOption "1999" ""; mkOption "2000" ""]
                                 (mkOption "2001" "")).
Defined.

(** X11. An option that is neither purely numeric nor starts with a month
    name, such as a leading [Select] placeholder, does not change what
    [detectSelectPurpose] answers. *)
Theorem detectSelectPurpose_ignores_placeholder :
  forall element options o,
    isNumeric (optionKey o) = false -> startsWithMonth (optionKey o) = false ->
    detectSelectPurpose element (o :: options) = detectSelectPurpose element options.
Proof.
  intros element options o N M. rewrite !detectSelectPurpose_hints.
  unfold numericOptionValues. cbn [map existsb filter]. now rewrite N, M.
Qed.

Lemma detectSelectPurpose_ignores_placeholder_witness :
  detectSelectPurpose (control "SELECT" "select-one" "" "" [])
                      (mkOption "" "Select" :: dayOptions)
  = detectSelectPurpose (control "SELECT" "select-one" "" "" []) dayOptions.
Proof.
  apply detectSelectPurpose_ignores_placeholder; reflexivity.
Defined.

(** ** [fillField]: what is written, and what is left alone *)


Lemma selectOption_value (el : Element) (options : list OptionEl) (p : OptionEl -> bool) :
  (el_value (selectOption el options p) = el_value el
   /\ el_checked (selectOption el options p) = el_checked el
   /\ find p options = None)
  \/ (exists o, find p options = Some o /\ In o options
                /\ el_value (selectOption el options p) = opt_value o
                /\ el_checked (selectOption el options p) = el_checked el).
Proof.
  unfold selectOption. destruct (find p options) as [o|] eqn:E.
  - right. exists o. apply find_some in E. now repeat split.
  - left. now repeat split.
Qed.

Lemma fillField_not_select (element : Element) (value : string) (fieldType : option string) :
  el_tagName element <> "SELECT" ->
  fillField element value fieldType
  = match
      (if (el_type element =? "radio")%string || (el_type element =? "checkbox")%string then
         if (toLowerCase (el_value element) =? toLowerCase value)%string
         then FellThrough (setChecked element true)
         else FellThrough element
       else if (el_type element =? "date")%string then
         match parseDate value with
         | Some dateVal =>
             FellThrough
               (setValue element
                  (toString (year dateVal) ++ "-" ++ padStart0 (toString (month dateVal)) 2
                   ++ "-" ++ padStart0 (toString (day dateVal)) 2))
         | None => FellThrough (setValue element value)
         end
       else if isDateOfBirth fieldType || isDateField element then
         match parseDate value with
         | Some dateVal =>
             FellThrough
               (setValue element (formatDateToExpected dateVal (detectDateFormat element)))
         | None => FellThrough (setValue element value)
         end
       else FellThrough (setValue element value))
    with
    | Returned el => el
    | FellThrough el => dispatchEvent (dispatchEvent el "input") "change"
    end.
Proof.
  intros H. unfold fillField, fillByKind.
  apply String.eqb_neq in H. now rewrite H.
Qed.



(** X14. A radio button or checkbox is never unchecked and never given a
    new value: it is checked when its own value equals the supplied one, up
    to letter case, and otherwise left as it was. *)
Theorem fillField_radio_checkbox :
  forall element value fieldType,
    el_tagName element <> "SELECT" ->
    el_type element = "radio" \/ el_type element = "checkbox" ->
    el_value (fillField element value fieldType) = el_value element
    /\ el_checked (fillField element value fieldType)
       = el_checked element
         || (toLowerCase (el_value element) =? toLowerCase value)%string.
Proof.
  intros element value fieldType Hs Ht.
  rewrite (fillField_not_select _ _ _ Hs).
  assert (T : (el_type element =? "radio")%string
              || (el_type element =? "checkbox")%string = true).
  { destruct Ht as [->| ->]; reflexivity. }
  rewrite T.
  destruct (toLowerCase (el_value element) =? toLowerCase value)%string; cbn.
  - split; [reflexivity|]. now rewrite orb_true_r.
  - split; [reflexivity|]. now rewrite orb_false_r.
Qed.

Lemma fillField_radio_checkbox_witness :
  let male := mkElement "INPUT" "radio" "gender" "" "" "" "Male" false [] None None None [] in
  let other := mkElement "INPUT" "radio" "gender" "" "" "" "Other" true [] None None None [] in
  el_checked (fillField male "MALE" (Some "gender")) = true
  /\ el_checked (fillField other "MALE" (Some "gender")) = true.
Proof.
  cbv zeta. split.
  - apply (proj2 (fillField_radio_checkbox
                    (mkElement "INPUT" "radio" "gender" "" "" "" "Male" false [] None None None [])
                    "MALE" (Some "gender") ltac:(discriminate) (or_introl eq_refl))).
  - apply (proj2 (fillField_radio_checkbox
                    (mkElement "INPUT" "radio" "gender" "" "" "" "Other" true [] None None None [])
                    "MALE" (Some "gender") ltac:(discriminate) (or_introl eq_refl))).
Defined.

(** X15. A select is only ever set to the value of one of its own options:
    after [fillField] its value is the old one or the value of an option,
    and nothing is checked or unchecked. *)
Theorem fillField_select_value :
  forall element value fieldType,
    el_tagName element = "SELECT" ->
    (el_value (fillField element value fieldType) = el_value element
     \/ exists o, In o (el_options element)
                  /\ el_value (fillField element value fieldType) = opt_value o)
    /\ el_checked (fillField element value fieldType) = el_checked element.
Proof.
  intros element value fieldType Hs. unfold fillField, fillByKind.
  rewrite Hs. cbn [String.eqb Ascii.eqb Bool.eqb]. unfold fillSelect.
  assert (G : forall p,
             (el_value (selectOption element (el_options element) p) = el_value element
              \/ exists o, In o (el_options element)
                           /\ el_value (selectOption element (el_options element) p)
                              = opt_value o)
             /\ el_checked (selectOption element (el_options element) p)
                = el_checked element).
  { intros p. destruct (selectOption_value element (el_options element) p)
      as [(V & C & _)|(o & _ & I & V & C)].
    - split; [now left|exact C].
    - split; [right; now exists o|exact C]. }
  destruct (isDateOfBirth fieldType || isDateRelatedSelect element);
    [destruct (parseDate value) as [dateVal|]|]; try apply G.
  destruct (detectSelectPurpose element (el_options element)) as [purpose|];
    [|apply G].
  repeat match goal with
         | |- context [match ?x with _ => _ end] =>
             lazymatch x with
             | context [selectOption] => fail
             | _ => destruct x
             end
         end; apply G.
Qed.

Lemma fillField_select_value_witness :
  (el_value (fillField dobDaySelect "32/01/1990" (Some "date_of_birth"))
   = el_value dobDaySelect
   \/ exists o, In o (el_options dobDaySelect)
                /\ el_value (fillField dobDaySelect "32/01/1990" (Some "date_of_birth"))
                   = opt_value o)
  /\ el_checked (fillField dobDaySelect "32/01/1990" (Some "date_of_birth"))
     = el_checked dobDaySelect.
Proof.
  apply fillField_select_value. reflexivity.
Defined.

(** A valid date written day first or in ISO form is read back as it is. *)
Lemma parseDate_of_formatted (d m y : Z) (yo : bool) (F : string) :
  validDate d m y -> In F dayFirstOrIso ->
  parseDate (formatDateToExpected (mkDate (Int d) (Int m) (Int y) yo) F)
  = Some (mkDate (Int d) (Int m) (Int y) false).
Proof.
  intros V [<-|[<-|[<-|[]]]].
  - apply (roundtrip_DMY d m y yo V _ "/"). now left.
  - apply (roundtrip_DMY d m y yo V _ "-"). now right.
  - apply (roundtrip_ISO d m y yo V).
Qed.





Lemma fillField_date_select (element : Element) (value : string)
      (fieldType : option string) (dateVal : CanonicalDate) (purpose : string) :
  el_tagName element = "SELECT" ->
  isDateOfBirth fieldType || isDateRelatedSelect element = true ->
  parseDate value = Some dateVal ->
  detectSelectPurpose element (el_options element) = Some purpose ->
  In purpose ["day"; "month"] ->
  fillField element value fieldType
  = dispatchEvent
      (selectOption element (el_options element)
         (if (purpose =? "day")%string then optionIsNumber (day dateVal)
          else optionIsMonth (month dateVal)))
      "change".
Proof.
  intros Hs Hb Hp Hd Hin. unfold fillField, fillByKind, fillSelect.
  rewrite Hs. cbn [String.eqb Ascii.eqb Bool.eqb]. rewrite Hb, Hp, Hd.
  destruct Hin as [<-|[<-|[]]]; reflexivity.
Qed.

Lemma find_day_option (d : Z) :
  1 <= d <= 31 ->
  find (optionIsNumber (Int d)) dayOptions
  = Some (mkOption (toString (Int d)) (toString (Int d))).
Proof.
  intros H.
  assert (C : In d (range 1 32)) by (apply in_range; lia).
  vm_compute in C.
  repeat (destruct C as [C|C]; [subst d; vm_compute; reflexivity|]).
  destruct C.
Qed.

Lemma find_month_option (m : Z) :
  1 <= m <= 12 ->
  find (optionIsMonth (Int m)) monthOptions
  = Some (mkOption (arrayAt monthNames (Int (m - 1))) (arrayAt monthNames (Int (m - 1)))).
Proof.
  intros H.
  assert (C : In m (range 1 13)) by (apply in_range; lia).
  vm_compute in C.
  repeat (destruct C as [C|C]; [subst m; vm_compute; reflexivity|]).
  destruct C.
Qed.

(** X18. The grouped date of the specification's scenario: for every valid
    date supplied day first or in ISO form, a date-related select resolved
    as [day] whose options are [1] to [31] is set to the day, and one
    resolved as [month] whose options are [Jan] to [Dec] is set to the name
    of the month. *)
Theorem fillField_day_and_month_selects :
  forall element fieldType d m y yo F,
    el_tagName element = "SELECT" ->
    isDateOfBirth fieldType || isDateRelatedSelect element = true ->
    validDate d m y -> In F dayFirstOrIso ->
    let value := formatDateToExpected (mkDate (Int d) (Int m) (Int y) yo) F in
    (el_options element = dayOptions ->
     detectSelectPurpose element dayOptions = Some "day" ->
     el_value (fillField element value fieldType) = toString (Int d))
    /\ (el_options element = monthOptions ->
        detectSelectPurpose element monthOptions = Some "month" ->
        el_value (fillField element value fieldType)
        = arrayAt monthNames (Int (m - 1))).
Proof.
  intros element fieldType d m y yo F Hs Hb V HF value. subst value.
  pose proof (parseDate_of_formatted d m y yo F V HF) as P.
  unfold validDate in V. split; intros Ho Hp.
  - rewrite (fillField_date_select element _ fieldType _ "day" Hs Hb P);
      [|now rewrite Ho|simpl; tauto].
    cbn [String.eqb Ascii.eqb Bool.eqb day]. unfold selectOption.
    rewrite Ho, (find_day_option d) by lia. reflexivity.
  - rewrite (fillField_date_select element _ fieldType _ "month" Hs Hb P);
      [|now rewrite Ho|simpl; tauto].
    cbn [String.eqb Ascii.eqb Bool.eqb month]. unfold selectOption.
    rewrite Ho, (find_month_option m) by lia. reflexivity.
Qed.

Lemma fillField_day_and_month_selects_witness :
  el_value (fillField dobDaySelect "15/08/1995" None) = "15"
  /\ el_value (fillField (control "SELECT" "select-one" "dob_month" "" monthOptions)
                         "15/08/1995" None) = "Aug".
Proof.
  assert (V : validDate 15 8 1995) by (unfold validDate; lia).
  assert (F : In "DD/MM/YYYY" dayFirstOrIso) by (simpl; tauto).
  split.
  - apply (proj1 (fillField_day_and_month_selects dobDaySelect None 15 8 1995 false
                    "DD/MM/YYYY" eq_refl eq_refl V F)); reflexivity.
  - apply (proj2 (fillField_day_and_month_selects
                    (control "SELECT" "select-one" "dob_month" "" monthOptions) None
                    15 8 1995 false "DD/MM/YYYY" eq_refl eq_refl V F)); reflexivity.
Defined.

Lemma sameControl_refl (a : Element) : sameControl a a.
Proof. unfold sameControl. now repeat split. Qed.

Lemma sameControl_trans (a b c : Element) :
  sameControl a b -> sameControl b c -> sameControl a c.
Proof.
  unfold sameControl. intros H1 H2.
  repeat match goal with H : _ /\ _ |- _ => destruct H end.
  repeat split; congruence.
Qed.

Lemma sameControl_selectOption el options p : sameControl el (selectOption el options p).
Proof.
  unfold selectOption. destruct (find p options);
    unfold sameControl; now repeat split.
Qed.

Lemma sameControl_fillByKind element value fieldType :
  match fillByKind element value fieldType with
  | Returned el | FellThrough el => sameControl element el
  end.
Proof.
  unfold fillByKind.
  destruct (el_tagName element =? "SELECT")%string.
  - unfold fillSelect.
    destruct (isDateOfBirth fieldType || isDateRelatedSelect element);
      [destruct (parseDate value) as [dateVal|]|];
      try apply sameControl_selectOption.
    apply (sameControl_trans _ (selectOption element (el_options element)
                                  (optionIs value))).
    + apply sameControl_selectOption.
    + assert (G : forall p q,
                 sameControl (selectOption element (el_options element) p)
                             (dispatchEvent (selectOption element (el_options element) q)
                                            "change")).
      { intros p q. unfold selectOption.
        destruct (find p (el_options element)), (find q (el_options element));
          unfold sameControl; now repeat split. }
      destruct (detectSelectPurpose element (el_options element)) as [purpose|];
        [|apply G].
      repeat match goal with
             | |- context [match ?x with _ => _ end] =>
                 lazymatch x with
                 | context [selectOption] => fail
                 | _ => destruct x
                 end
             end; apply G.
  - repeat match goal with
           | |- match (if ?c then _ else _) with _ => _ end => destruct c
           | |- match (match ?x with Some _ => _ | None => _ end) with _ => _ end =>
               destruct x
           end; unfold sameControl; now repeat split.
Qed.

Lemma sameControl_fillField element value fieldType :
  sameControl element (fillField element value fieldType).
Proof.
  unfold fillField. pose proof (sameControl_fillByKind element value fieldType) as H.
  destruct (fillByKind element value fieldType) as [el|el]; [exact H|].
  eapply sameControl_trans; [exact H|]. unfold sameControl. now repeat split.
Qed.

Lemma sameControl_identifyField (a b : Element) :
  sameControl a b -> identifyField a = identifyField b.
Proof.
  unfold sameControl. intros (T & Ty & N & I & P & A & O & L & C & S).
  unfold identifyField, identifiers, getFieldLabel.
  now rewrite Ty, N, I, P, A, L, C, S.
Qed.

(** X19. Filling a control changes neither its tag, type, name, id,
    placeholder, options nor its labels, only its value, its checked state
    and its events; so the control is classified after [fillField] as it
    was before, and asks for the same date format. *)
Theorem fillField_keeps_the_control :
  forall element value fieldType,
    sameControl element (fillField element value fieldType)
    /\ identifyField (fillField element value fieldType) = identifyField element
    /\ detectDateFormat (fillField element value fieldType) = detectDateFormat element.
Proof.
  intros element value fieldType.
  pose proof (sameControl_fillField element value fieldType) as H.
  split; [exact H|]. split.
  - symmetry. now apply sameControl_identifyField.
  - unfold detectDateFormat. destruct H as (_ & _ & _ & _ & <- & _). reflexivity.
Qed.

(** ** [formatFieldName] *)

Lemma split_nonempty (sep : ascii) (s : string) : split sep s <> [].
Proof.
  destruct s as [|c t]; cbn; [discriminate|].
  destruct (c =? sep)%char; [discriminate|].
  destruct (split sep t); discriminate.
Qed.











Example formatFieldName_date_of_birth : formatFieldName "date_of_birth" = "Date Of Birth".
Proof. reflexivity. Qed.

(** ** [maskSensitiveValue] once more *)

Lemma drop_length_app (a b : string) : drop (String.length a) (a ++ b) = b.
Proof. induction a as [|x a IH]; cbn; [now destruct b|exact IH]. Qed.

Lemma length_maskedAllButLast4 (v : string) :
  String.length (maskedAllButLast4 v) = String.length v.
Proof.
  unfold maskedAllButLast4. rewrite length_append, length_repeatStr_X, length_drop. lia.
Qed.

Lemma drop_repeatStr_X (n : nat) (x : string) : drop n (repeatStr "X" n ++ x) = x.
Proof.
  rewrite <- (length_repeatStr_X n) at 1. apply drop_length_app.
Qed.

Lemma maskedAllButLast4_idempotent (v : string) :
  maskedAllButLast4 (maskedAllButLast4 v) = maskedAllButLast4 v.
Proof.
  unfold maskedAllButLast4 at 1. rewrite length_maskedAllButLast4.
  unfold maskedAllButLast4. now rewrite drop_repeatStr_X.
Qed.

Lemma maskSensitiveValue_cases (fieldType value : string) :
  maskSensitiveValue fieldType value
  = if arrayIncludes sensitiveFields fieldType then maskedAllButLast4 value else value.
Proof.
  unfold maskSensitiveValue.
  destruct (arrayIncludes sensitiveFields fieldType); [|reflexivity]. cbn [andb].
  destruct (4 <? String.length value)%nat eqn:L.
  - unfold maskedAllButLast4. now rewrite slice_last4.
  - apply Nat.ltb_ge in L. now rewrite maskedAllButLast4_short.
Qed.

(** X21. Masking twice is masking once: a masked text that is masked
    again under the same field type is shown unchanged. *)
Theorem maskSensitiveValue_idempotent :
  forall fieldType value,
    maskSensitiveValue fieldType (maskSensitiveValue fieldType value)
    = maskSensitiveValue fieldType value.
Proof.
  intros ft v. rewrite !maskSensitiveValue_cases.
  destruct (arrayIncludes sensitiveFields ft); [|reflexivity].
  apply maskedAllButLast4_idempotent.
Qed.

(** X22. The mask of a sensitive value shows its length and its last four
    characters and nothing else: two values of the same length that end in
    the same four characters have the same mask. *)
Theorem maskSensitiveValue_hides_the_rest :
  forall fieldType v w,
    In fieldType sensitiveFields ->
    String.length v = String.length w ->
    slice v (-4) = slice w (-4) ->
    maskSensitiveValue fieldType v = maskSensitiveValue fieldType w.
Proof.
  intros ft v w H L S. rewrite !maskSensitiveValue_cases.
  rewrite (proj2 (arrayIncludes_In _ _) H).
  unfold maskedAllButLast4. rewrite <- !slice_last4, L, S. reflexivity.
Qed.

Lemma maskSensitiveValue_hides_the_rest_witness :
  maskSensitiveValue "aadhaar_number" "123456789012"
  = maskSensitiveValue "aadhaar_number" "999999999012".
Proof.
  apply maskSensitiveValue_hides_the_rest; try reflexivity. simpl. tauto.
Defined.

(** ** [getFieldLabel] *)

Lemma trimStart_head (s : string) (c : ascii) (t : string) :
  trimStart s = String c t -> isSpace c = false.
Proof.
  induction s as [|x s IH]; cbn; [discriminate|].
  destruct (isSpace x) eqn:E; [exact IH|].
  intros H. inversion H; subst. exact E.
Qed.

Lemma trimEnd_idempotent (s : string) : trimEnd (trimEnd s) = trimEnd s.
Proof.
  assert (U : forall c u,
             trimEnd (String c u)
             = match trimEnd u with
               | EmptyString => if isSpace c then EmptyString else String c EmptyString
               | String x u' => String c (String x u')
               end) by reflexivity.
  induction s as [|c t IH]; [reflexivity|]. rewrite (U c t).
  destruct (trimEnd t) as [|x t'] eqn:E.
  - destruct (isSpace c) eqn:S; [reflexivity|]. rewrite U. cbn [trimEnd]. now rewrite S.
  - rewrite U, IH. reflexivity.
Qed.

Lemma trimEnd_keeps_head (c : ascii) (t : string) :
  isSpace c = false -> exists t', trimEnd (String c t) = String c t'.
Proof.
  intros H. cbn [trimEnd]. destruct (trimEnd t) as [|x t'].
  - rewrite H. now exists "".
  - now exists (String x t').
Qed.

Lemma trim_idempotent (s : string) : trim (trim s) = trim s.
Proof.
  unfold trim. destruct (trimStart s) as [|c t] eqn:E; [reflexivity|].
  destruct (trimEnd_keeps_head c t (trimStart_head _ _ _ E)) as [t' T].
  rewrite T. cbn [trimStart]. rewrite (trimStart_head _ _ _ E).
  rewrite <- T. apply trimEnd_idempotent.
Qed.

(** X23. The label text [getFieldLabel] resolves carries no white space at
    either end, whichever of the three places it comes from: trimming it
    again changes nothing. *)
Theorem getFieldLabel_trimmed :
  forall input, trim (getFieldLabel input) = getFieldLabel input.
Proof.
  intros input. unfold getFieldLabel.
  destruct (if truthy (el_id input) then el_labelFor input else None);
    [apply trim_idempotent|].
  destruct (el_closestLabel input); [apply trim_idempotent|].
  destruct (el_previousSibling input) as [[tag t]|]; [|reflexivity].
  destruct ((tag =? "LABEL")%string || (tag =? "SPAN")%string);
    [apply trim_idempotent|reflexivity].
Qed.

(** ** [checkWebsite] *)

Lemma split_at_drop (n : nat) : forall s,
  (n <= String.length s)%nat -> exists p, s = p ++ drop n s /\ String.length p = n.
Proof.
  induction n as [|n IH]; intros s H.
  - exists "". now split.
  - destruct s as [|c s]; [cbn in H; lia|].
    destruct (IH s ltac:(cbn in H; lia)) as (p & E & L).
    exists (String c p). cbn. split; [now rewrite <- E|now rewrite L].
Qed.

Lemma endsWith_iff (s suffix : string) :
  endsWith s suffix = true <-> exists p, s = p ++ suffix.
Proof.
  unfold endsWith. rewrite andb_true_iff, Nat.leb_le, String.eqb_eq. split.
  - intros [L E].
    destruct (split_at_drop (String.length s - String.length suffix) s ltac:(lia))
      as (p & Hp & _).
    exists p. now rewrite E in Hp.
  - intros [p ->]. rewrite length_append. split; [lia|].
    replace (String.length p + String.length suffix - String.length suffix)%nat
      with (String.length p) by lia.
    apply drop_length_app.
Qed.

(** X24. [checkWebsite] calls a website supported exactly when its URL
    parses, its protocol is [https:] and its host name ends in [gov.in];
    the five longer entries of the list add nothing, and nothing asks for a
    dot before [gov.in]. *)
Theorem checkWebsite_supported_iff :
  forall urlObj,
    isSupportedWebsite urlObj <->
    exists u prefix,
      urlObj = Some u /\ protocol u = "https:" /\ hostname u = prefix ++ "gov.in".
Proof.
  intros [u|]; unfold isSupportedWebsite, checkWebsite; split.
  - destruct (String.eqb_spec (protocol u) "https:") as [P|P]; cbn [negb].
    + destruct (existsb _ supportedDomains) eqn:E; intros [reason H];
        [|discriminate H].
      apply existsb_exists in E. destruct E as (dom & Hd & E).
      apply endsWith_iff in E. destruct E as [p E].
      assert (Q : exists q, dom = q ++ "gov.in").
      { unfold supportedDomains in Hd. simpl in Hd.
        destruct Hd as [<-|[<-|[<-|[<-|[<-|[<-|[]]]]]]].
        - now exists "".
        - now exists "india.".
        - now exists "digitalindia.".
        - now exists "uidai.".
        - now exists "incometax.".
        - now exists "epfindia.". }
      destruct Q as [q ->]. exists u, (p ++ q). rewrite append_assoc. now repeat split.
    + intros [reason H]. discriminate H.
  - intros (u' & prefix & E & P & H). inversion E; subst u'.
    rewrite P. cbn [String.eqb Ascii.eqb Bool.eqb negb].
    assert (X : existsb (fun domain => endsWith (hostname u) domain) supportedDomains
                = true).
    { apply existsb_exists. exists "gov.in". split; [now left|].
      apply endsWith_iff. now exists prefix. }
    rewrite X. now eexists.
  - intros [reason H]. discriminate H.
  - intros (u & prefix & E & _). discriminate E.
Qed.

Example checkWebsite_no_dot_boundary :
  checkWebsite (Some (mkURL "https:" "notgov.in")) = Checked true "Website supported"
  /\ checkWebsite (Some (mkURL "http:" "uidai.gov.in"))
     = Checked false "Only HTTPS websites are supported".
Proof. split; reflexivity. Qed.

(** ** The autofill session *)










Lemma unique_spec (fields : list string) : forall seen,
  NoDup (Session.unique seen fields)
  /\ (forall x, In x (Session.unique seen fields) <-> In x fields /\ ~ In x seen)
  .
Proof.
  induction fields as [|f fields IH]; intros seen; cbn [Session.unique].
  - split; [constructor|]. intros x. cbn. tauto.
  - destruct (existsb (String.eqb f) seen) eqn:E.
    + apply existsb_exists in E. destruct E as (y & Hy & E).
      apply String.eqb_eq in E. subst y.
      destruct (IH seen) as [N M]. split; [exact N|].
      intros x. rewrite M. cbn. split; [tauto|].
      intros [[<-|H] S]; [contradiction|tauto].
    + assert (Hf : ~ In f seen).
      { intros H. apply not_true_iff_false in E. apply E.
        apply existsb_exists. exists f. split; [exact H|apply String.eqb_refl]. }
      destruct (IH (f :: seen)) as [N M]. split.
      * constructor; [|exact N]. rewrite M. cbn. tauto.
      * intros x. cbn [In]. rewrite M. cbn [In]. split.
        -- intros [<-|[H S]]; [tauto|]. split; [tauto|]. tauto.
        -- intros [[<-|H] S]; [now left|].
           destruct (string_dec f x) as [->|Hne]; [now left|]. right. tauto.
Qed.

(** X26. A click on the autofill button asks the background script for
    every detected field type exactly once, in the order of first
    detection, together with the address of the page; it changes nothing
    else. *)
Theorem handleAutofillClick_requests_each_type_once :
  forall st,
    exists fields,
      Session.handleAutofillClick st
      = Session.emit [Session.SendGetAutofillData fields (Session.href st)] st
      /\ NoDup fields
      /\ (forall ft, In ft fields <->
                     exists f, In f (Session.detectedFields st)
                               /\ Session.df_fieldType f = ft).
Proof.
  intros st. eexists. split; [reflexivity|].
  destruct (unique_spec (map Session.df_fieldType (Session.detectedFields st)) [])
    as [N M].
  split; [exact N|]. intros ft. rewrite M, in_map_iff. cbn. split.
  - intros [(f & E & H) _]. now exists f.
  - intros (f & H & E). split; [now exists f|tauto].
Qed.

(** One event that fills nothing keeps the session idle. *)
Lemma step_without_consent (st : Session.State) (e : Session.Event) :
  Session.isAutofillActive st = false -> Session.verifyPopup st = None ->
  Session.fills e = false ->
  let st' := Session.step st e in
  Session.isAutofillActive st' = false /\ Session.verifyPopup st' = None
  /\ Session.elements st' = Session.elements st
  /\ Session.highlighted st' = Session.highlighted st
  /\ exists new, Session.effects st' = (Session.effects st ++ new)%list
                 /\ existsb Session.touchesForm new = false.
Proof.
  intros A V F. cbv zeta.
  assert (Same : forall st', Session.effects st' = Session.effects st ->
            exists new, Session.effects st' = (Session.effects st ++ new)%list
                        /\ existsb Session.touchesForm new = false).
  { intros st' E. exists []. split; [now rewrite app_nil_r|reflexivity]. }
  destruct e as [|response|checked| |target| | |data|ft v]; cbn [Session.step];
    try discriminate F.
  - repeat split; try assumption. eexists. split; reflexivity.
  - destruct response as [data|error]; cbn.
    + repeat split; try assumption. now apply Same.
    + repeat split; try assumption. eexists. split; reflexivity.
  - destruct checked; [discriminate F|]. unfold Session.confirmAutofill.
    destruct (Session.consentPopup st); cbn.
    + repeat split; try assumption. eexists. split; reflexivity.
    + repeat split; try assumption. now apply Same.
  - cbn. repeat split; try assumption. now apply Same.
  - unfold Session.handleFormSubmit. rewrite A. cbn.
    repeat split; try assumption. now apply Same.
  - cbn. repeat split; try assumption. now apply Same.
  - unfold Session.confirmSubmit. rewrite V.
    repeat split; try assumption. now apply Same.
Qed.

(** X27. Consent gates the autofill: as long as the consent panel is not
    confirmed with its box checked (and no [AUTOFILL_FORM] or voice message
    arrives), whatever the user clicks, requests, cancels or submits, no
    control is written or highlighted, [isAutofillActive] stays off, no
    submission is held back and no consent is logged. *)
Theorem no_fill_without_consent :
  forall events st,
    Session.isAutofillActive st = false -> Session.verifyPopup st = None ->
    forallb (fun e => negb (Session.fills e)) events = true ->
    let st' := Session.run st events in
    Session.isAutofillActive st' = false
    /\ Session.elements st' = Session.elements st
    /\ Session.highlighted st' = Session.highlighted st
    /\ exists new, Session.effects st' = (Session.effects st ++ new)%list
                   /\ existsb Session.touchesForm new = false.
Proof.
  assert (G : forall events st,
             Session.isAutofillActive st = false -> Session.verifyPopup st = None ->
             forallb (fun e => negb (Session.fills e)) events = true ->
             let st' := Session.run st events in
             Session.isAutofillActive st' = false /\ Session.verifyPopup st' = None
             /\ Session.elements st' = Session.elements st
             /\ Session.highlighted st' = Session.highlighted st
             /\ exists new, Session.effects st' = (Session.effects st ++ new)%list
                            /\ existsb Session.touchesForm new = false).
  { induction events as [|e events IH]; intros st A V F; cbv zeta.
    - cbn. repeat split; try assumption. exists [].
      split; [now rewrite app_nil_r|reflexivity].
    - cbn [forallb] in F. apply andb_prop in F. destruct F as [Fe F].
      apply negb_true_iff in Fe.
      destruct (step_without_consent st e A V Fe) as (A1 & V1 & E1 & H1 & new1 & N1 & T1).
      destruct (IH (Session.step st e) A1 V1 F) as (A2 & V2 & E2 & H2 & new2 & N2 & T2).
      unfold Session.run in *. cbn [fold_left].
      split; [exact A2|]. split; [exact V2|]. split; [congruence|]. split; [congruence|].
      exists (new1 ++ new2)%list. split.
      + now rewrite N2, N1, app_assoc.
      + now rewrite existsb_app, T1, T2. }
  intros events st A V F. destruct (G events st A V F) as (A' & _ & R). now split.
Qed.

Lemma no_fill_without_consent_witness :
  let st' := Session.run aadhaarPage
                         [ Session.AutofillClick;
                           Session.AutofillDataResponse
                             (inl [("aadhaar_number", "123456789012")]);
                           Session.ConfirmAutofill false;
                           Session.Submit (Session.FormTarget 0) ] in
  Session.isAutofillActive st' = false
  /\ Session.elements st' = Session.elements aadhaarPage
  /\ Session.highlighted st' = Session.highlighted aadhaarPage
  /\ exists new, Session.effects st' = (Session.effects aadhaarPage ++ new)%list
                 /\ existsb Session.touchesForm new = false.
Proof.
  apply (no_fill_without_consent _ aadhaarPage); reflexivity.
Defined.

(** X28. Once [isAutofillActive] is on, a submission is held back and the
    verification panel opened; cancelling the panel leaves the next
    submission held back again; confirming it switches [isAutofillActive]
    off, logs the consent and submits the form (through the enclosing form
    when a submit control was clicked, and not at all when there is none),
    after which submissions pass untouched. *)
Theorem submission_is_verified_once :
  forall st target,
    Session.isAutofillActive st = true ->
    let held := [Session.PreventDefault; Session.StopPropagation] in
    let asked := Session.handleFormSubmit target st in
    let done := Session.confirmSubmit asked in
    Session.effects asked = (Session.effects st ++ held)%list
    /\ Session.verifyPopup asked = Some target
    /\ (forall again,
          Session.effects (Session.handleFormSubmit again (Session.cancelSubmit asked))
          = (Session.effects asked ++ held)%list)
    /\ Session.isAutofillActive done = false
    /\ Session.effects done
       = (Session.effects asked
          ++ Session.SendLogConsent "form_submission" true (Session.href st)
               (map Session.df_fieldType (Session.detectedFields st))
             :: submitEffects target)%list
    /\ (forall again, Session.handleFormSubmit again done = done)
    /\ Session.elements done = Session.elements st.
Proof.
  intros st target A. cbv zeta.
  unfold Session.handleFormSubmit. rewrite A. cbn [negb].
  repeat split; try reflexivity.
  - intros again. cbn. rewrite A. reflexivity.
  - destruct target as [f|[f|]]; reflexivity.
  - destruct target as [f|[f|]]; cbn; now rewrite <- app_assoc.
  - intros again. destruct target as [f|[f|]]; reflexivity.
  - destruct target as [f|[f|]]; reflexivity.
Qed.

Lemma submission_is_verified_once_witness :
  let st := Session.performAutofill [("aadhaar_number", "123456789012")] aadhaarPage in
  let asked := Session.handleFormSubmit (Session.FormTarget 0) st in
  Session.verifyPopup asked = Some (Session.FormTarget 0)
  /\ Session.isAutofillActive (Session.confirmSubmit asked) = false.
Proof.
  cbv zeta.
  destruct (submission_is_verified_once
              (Session.performAutofill [("aadhaar_number", "123456789012")] aadhaarPage)
              (Session.FormTarget 0) eq_refl) as (_ & V & _ & A & _).
  split; [exact V|exact A].
Defined.


